(** * PDF-to-Json: the dual extraction dispatch, the result merge and the viewer

    A shallow embedding of the TypeScript sources
    - [src/types.ts]                       (the data model),
    - [src/services/localPdfService.ts]    ([parsePdfLocal]),
    - [src/services/geminiService.ts]      ([fileToGenerativePart], [parsePdfWithGemini]),
    - [src/components/FileUpload.tsx]      ([handleDrop], [handleFileChange]),
    - [src/App.tsx]                        ([handleFileSelected], [handleReset]),
    - [src/components/JsonViewer.tsx]      ([hasTransactions], [handleDownload], the table),
    followed by the properties of the specification proved about them. *)

From Stdlib Require Import ZArith List String Ascii Bool Lia.
From Stdlib Require Import DecimalString SpecFloat.
Import ListNotations.

Local Open Scope list_scope.
Local Open Scope string_scope.

(* ================================================================== *)
(** * The JavaScript values the program manipulates                    *)
(* ================================================================== *)

Module Js.

(** ** Numbers

    A JavaScript number is an IEEE 754 binary64 value.  [spec_float] is the
    Standard Library's inductive description of such values; [prec] and
    [emax] fix the format. *)

Definition number : Type := spec_float.

Definition prec : Z := 53.
Definition emax : Z := 1024.

(** The number denoted by an integer literal such as [1500.00] or [-200.00]
    (rounded to nearest-even, as the parser of number literals does). *)
Definition of_Z (z : Z) : number := binary_normalize prec emax z 0 false.

Definition zero : number := S754_zero false.

(** [a > b] and [a < b]; both are [false] as soon as one side is NaN. *)
Definition gt (a b : number) : bool := SFltb b a.
Definition lt (a b : number) : bool := SFltb a b.

(** [Math.abs]. *)
Definition Math_abs (x : number) : number := SFabs x.

(** ToBoolean on a number: [+0], [-0] and [NaN] are falsy. *)
Definition truthy_number (x : number) : bool :=
  match x with
  | S754_zero _ | S754_nan => false
  | _ => true
  end.

(** [o || d] where [o] is a possibly [undefined] number. *)
Definition number_or (o : option number) (d : number) : number :=
  match o with
  | Some x => if truthy_number x then x else d
  | None => d
  end.

(** ** Strings *)

(** ToBoolean on a possibly [undefined] string: [undefined] and the empty
    string are falsy. *)
Definition truthy_string (o : option string) : bool :=
  match o with
  | Some EmptyString | None => false
  | Some _ => true
  end.

(** [o || d] where [o] is a possibly [undefined] string. *)
Definition string_or (o : option string) (d : string) : string :=
  match o with
  | Some s => if truthy_string (Some s) then s else d
  | None => d
  end.

(** The string itself when it is truthy: what the guard [if (!s) throw ...]
    lets through. *)
Definition truthy_text (o : option string) : option string :=
  if truthy_string o then o else None.

(** [o?.f]: [undefined] when [o] is. *)
Definition opt_chain {A B} (o : option A) (f : A -> option B) : option B :=
  match o with
  | Some a => f a
  | None => None
  end.

(** [Array.prototype.join] on an array of strings. *)
Fixpoint join (sep : string) (l : list string) : string :=
  match l with
  | [] => ""
  | [s] => s
  | s :: rest => s ++ sep ++ join sep rest
  end.

Definition dquote : ascii := "034"%char.
Definition newline : ascii := "010"%char.
Definition comma : ascii := ","%char.

Definition str1 (c : ascii) : string := String c EmptyString.

(** [s.replace(/c/g, r)] for a one-character pattern [c]: every occurrence
    of [c] is replaced by [r], every other character is kept. *)
Fixpoint replace_all (c : ascii) (r : string) (s : string) : string :=
  match s with
  | EmptyString => EmptyString
  | String a rest =>
      if Ascii.eqb a c then r ++ replace_all c r rest
      else String a (replace_all c r rest)
  end.

(** [s.split(c)] for a one-character separator: never the empty array. *)
Fixpoint split (c : ascii) (s : string) : list string :=
  match s with
  | EmptyString => [EmptyString]
  | String a rest =>
      if Ascii.eqb a c then EmptyString :: split c rest
      else match split c rest with
           | [] => [str1 a]
           | hd :: tl => String a hd :: tl
           end
  end.

(** The decimal digits of a natural number, as the template literal
    [`${i}`] prints an integer loop counter. *)
Definition digits_of_nat (n : nat) : string :=
  NilZero.string_of_uint (Nat.to_uint n).

Definition digits_of_Z (n : Z) : string :=
  NilZero.string_of_uint (N.to_uint (Z.to_N n)).

Fixpoint zeros (n : nat) : string :=
  match n with
  | O => EmptyString
  | S k => String "0" (zeros k)
  end.

(** ** [Number.prototype.toFixed]

    ECMAScript, Number.prototype.toFixed(fractionDigits), for
    [0 <= f <= 100], reading the number as its exact real value
    [m * 2^e]. *)

(** Step 11.a: the integer [n] for which [n / 10^f - x] is as close to zero
    as possible, the larger [n] when there are two, for [x = m * 2^e]. *)
Definition nearest_scaled (f : nat) (m : positive) (e : Z) : Z :=
  let p := (10 ^ Z.of_nat f)%Z in
  match e with
  | Zneg d => ((2 * Zpos m * p + 2 ^ Zpos d) / 2 ^ (Zpos d + 1))%Z
  | _ => (Zpos m * 2 ^ e * p)%Z
  end.

(** Step 10's test [x >= 10^21] for [x = m * 2^e]. *)
Definition at_least_1e21 (m : positive) (e : Z) : bool :=
  match e with
  | Zneg d => (10 ^ 21 * 2 ^ Zpos d <=? Zpos m)%Z
  | _ => (10 ^ 21 <=? Zpos m * 2 ^ e)%Z
  end.

(** Steps 11.b and 11.c: the digits of [n] with the decimal point placed
    [f] digits from the right. *)
Definition place_point (f : nat) (n : Z) : string :=
  let m := if (n =? 0)%Z then "0" else digits_of_Z n in
  match f with
  | O => m
  | _ =>
      let k := String.length m in
      let m' := if (k <=? f)%nat then zeros (f + 1 - k) ++ m else m in
      let k' := if (k <=? f)%nat then (f + 1)%nat else k in
      substring 0 (k' - f) m' ++ "." ++ substring (k' - f) f m'
  end.

(** [x.toFixed(f)].  [Number_toString] is Number::toString, the shortest
    round-tripping decimal form of a number, a primitive of the language. *)
Definition toFixed (Number_toString : number -> string) (f : nat) (x : number)
  : string :=
  match x with
  | S754_nan | S754_infinity _ => Number_toString x
  | S754_zero _ => place_point f 0
  | S754_finite s m e =>
      (if s then "-" else "") ++
      (if at_least_1e21 m e then Number_toString (SFabs x)
       else place_point f (nearest_scaled f m e))
  end.

(** ** Promises and [await]

    What an [async] function, or a promise it awaits, comes to: it is
    fulfilled with a value, rejected with a thrown value, or never
    settles. *)

(** A thrown value, as far as the program looks at it: [err.message],
    which is [undefined] when the value is not an [Error] (a FileReader
    error event, for instance). *)
Record Thrown : Type := mkThrown { message : option string }.

Definition Error (msg : string) : Thrown := mkThrown (Some msg).

Inductive Promise (A : Type) : Type :=
| Fulfilled (a : A)
| Rejected (reason : Thrown)
| Pending.

Arguments Fulfilled {A} a.
Arguments Rejected {A} reason.
Arguments Pending {A}.

(** [const x = await p; k x] inside an [async] function. *)
Definition await {A B} (p : Promise A) (k : A -> Promise B) : Promise B :=
  match p with
  | Fulfilled a => k a
  | Rejected r => Rejected r
  | Pending => Pending
  end.

Definition ret {A} (a : A) : Promise A := Fulfilled a.
Definition throw {A} (r : Thrown) : Promise A := Rejected r.

(** [try { body } catch (error) { handler error }]. *)
Definition try_catch {A} (body : Promise A) (handler : Thrown -> Promise A)
  : Promise A :=
  match body with
  | Rejected r => handler r
  | other => other
  end.

(** A synchronous call that returns or throws, inside an [async] function. *)
Definition of_result {A} (r : Thrown + A) : Promise A :=
  match r with
  | inl e => Rejected e
  | inr a => Fulfilled a
  end.

(** [Promise.all([p1, p2])]: fulfilled with both values once both are
    fulfilled, rejected as soon as one is rejected.  When both reject, the
    reason is that of the one that rejected first; [second_first] tells
    whether that was [p2]. *)
Definition Promise_all2 {A B} (second_first : bool)
    (p1 : Promise A) (p2 : Promise B) : Promise (A * B) :=
  match p1, p2 with
  | Fulfilled a, Fulfilled b => Fulfilled (a, b)
  | Rejected r1, Rejected r2 => Rejected (if second_first then r2 else r1)
  | Rejected r1, _ => Rejected r1
  | _, Rejected r2 => Rejected r2
  | _, _ => Pending
  end.

End Js.

Notation "x <- p ;; k" := (Js.await p (fun x => k))
  (at level 61, p at next level, right associativity).
Notation "' pat <- p ;; k" := (Js.await p (fun pat => k))
  (at level 61, pat pattern, p at next level, right associativity).

Import Js.

(* ================================================================== *)
(** * [src/types.ts]                                                   *)
(* ================================================================== *)

Record ParsedElement : Type := {
  type : string;
  content : string
}.

Record ParsedPage : Type := {
  pageNumber : number;
  rawText : string;
  structuredElements : list ParsedElement
}.

Record ParsedMetadata : Type := {
  title : string;
  author : string;
  summary : string;
  language : string;
  topic : string
}.

Record Transaction : Type := {
  post_date : string;
  trans_date : string;
  description : string;
  amount : number;
  currency : string
}.

Record TokenUsage : Type := {
  promptTokens : number;
  responseTokens : number;
  totalTokens : number
}.

(** The three optional members are [None] when the property is absent. *)
Record PdfParseResult : Type := {
  metadata : ParsedMetadata;
  pages : list ParsedPage;
  transactions : option (list Transaction);
  standardRawText : option string;
  tokenUsage : option TokenUsage
}.

Inductive ParseStatus : Type := IDLE | PROCESSING | SUCCESS | ERROR.

(** A result seen as the object it is: [property r name] is [r[name]],
    [None] standing for [undefined]. *)
Inductive PropertyValue : Type :=
| P_metadata (m : ParsedMetadata)
| P_pages (ps : list ParsedPage)
| P_transactions (txs : list Transaction)
| P_text (s : string)
| P_tokenUsage (u : TokenUsage).

Definition property (r : PdfParseResult) (name : string)
  : option PropertyValue :=
  if String.eqb name "metadata" then Some (P_metadata (metadata r))
  else if String.eqb name "pages" then Some (P_pages (pages r))
  else if String.eqb name "transactions"
       then option_map P_transactions (transactions r)
  else if String.eqb name "standardRawText"
       then option_map P_text (standardRawText r)
  else if String.eqb name "tokenUsage"
       then option_map P_tokenUsage (tokenUsage r)
  else None.

(** The object spreads [{...r, tokenUsage}] and [{...r, standardRawText: t}]:
    a copy of [r] in which one property is set. *)
Definition with_tokenUsage (r : PdfParseResult) (u : TokenUsage)
  : PdfParseResult :=
  {| metadata := metadata r;
     pages := pages r;
     transactions := transactions r;
     standardRawText := standardRawText r;
     tokenUsage := Some u |}.

Definition with_standardRawText (r : PdfParseResult) (t : string)
  : PdfParseResult :=
  {| metadata := metadata r;
     pages := pages r;
     transactions := transactions r;
     standardRawText := Some t;
     tokenUsage := tokenUsage r |}.

(* ================================================================== *)
(** * The collaborators: browser, pdf.js, the generative-AI SDK        *)
(* ================================================================== *)

(** A browser [File]: its name, its declared MIME type and its bytes. *)
Module File.
Record t : Type := { name : string; type : string; bytes : list Byte.byte }.
End File.

(** pdf.js: a loaded document, its pages and their text content. *)
Record TextItem : Type := { str : string }.
Record TextContent : Type := { items : list TextItem }.
Record PDFPageProxy : Type := { getTextContent : Promise TextContent }.
Record PDFDocumentProxy : Type := {
  numPages : nat;
  getPage : nat -> Promise PDFPageProxy
}.

(** The request part and the response of [ai.models.generateContent]. *)
Record InlineData : Type := { data : option string; mimeType : string }.
Record GenerativePart : Type := { inlineData : InlineData }.

Record UsageMetadata : Type := {
  promptTokenCount : option number;
  candidatesTokenCount : option number;
  totalTokenCount : option number
}.

Record GenerateContentResponse : Type := {
  text : option string;
  usageMetadata : option UsageMetadata
}.

(** Everything the program calls and does not define.  The prompt, the model
    name and the response schema passed to [generateContent] are constants of
    the call site; the response is a function of the document part. *)
Record Env : Type := {
  (** Number::toString *)
  Number_toString : number -> string;
  (** [JSON.parse(s) as PdfParseResult]: the parsed document, read at the
      interface's type, or the [SyntaxError] thrown *)
  JSON_parse : string -> Thrown + PdfParseResult;
  (** [JSON.stringify(data, null, 2)] *)
  JSON_stringify : PdfParseResult -> string;
  (** [FileReader.readAsDataURL]: the data URL on [load], the event on
      [error] *)
  readAsDataURL : File.t -> Promise string;
  (** [ai.models.generateContent] *)
  generateContent : GenerativePart -> Promise GenerateContentResponse;
  (** [file.arrayBuffer()] *)
  arrayBuffer : File.t -> Promise (list Byte.byte);
  (** [pdfjsLib.getDocument({ data }).promise] *)
  getDocument : list Byte.byte -> Promise PDFDocumentProxy;
  (** of two rejections under [Promise.all], whether the second listed
      promise rejected first *)
  second_rejects_first : bool
}.

(* ================================================================== *)
(** * [src/services/localPdfService.ts]                                *)
(* ================================================================== *)

Definition local_failure_text : string :=
  "Error: Could not extract raw text from PDF for comparison.".

(** [textContent.items.map((item: any) => item.str).join(' ')] *)
Definition pageText_of (textContent : TextContent) : string :=
  join " " (map str (items textContent)).

(** [`--- PAGE ${i} ---\n\n${pageText}\n\n`] *)
Definition page_block (i : nat) (pageText : string) : string :=
  "--- PAGE " ++ digits_of_nat i ++ " ---" ++ str1 newline ++ str1 newline
  ++ pageText ++ str1 newline ++ str1 newline.

(** The loop [for (let i = 1; i <= pdf.numPages; i++) { ... }], entered at
    counter [i] with [fullText] accumulated so far; [remaining] is the number
    of iterations left, [pdf.numPages + 1 - i]. *)
Fixpoint pages_loop (pdf : PDFDocumentProxy) (remaining i : nat)
    (fullText : string) : Promise string :=
  match remaining with
  | O => ret fullText
  | S remaining' =>
      page <- getPage pdf i ;;
      textContent <- getTextContent page ;;
      let pageText := pageText_of textContent in
      pages_loop pdf remaining' (S i) (fullText ++ page_block i pageText)
  end.

(** The body of the [try] block of [parsePdfLocal]. *)
Definition parsePdfLocal_try (env : Env) (file : File.t) : Promise string :=
  buffer <- arrayBuffer env file ;;
  pdf <- getDocument env buffer ;;
  let fullText := "" in
  pages_loop pdf (numPages pdf) 1 fullText.

Definition parsePdfLocal (env : Env) (file : File.t) : Promise string :=
  try_catch (parsePdfLocal_try env file)
            (fun error => ret local_failure_text).

(* ================================================================== *)
(** * [src/services/geminiService.ts]                                  *)
(* ================================================================== *)

(** [base64String.split(',')[1]]: [undefined] when there is no comma. *)
Definition base64Data_of (base64String : string) : option string :=
  nth_error (split comma base64String) 1.

(** The promise built around the [FileReader]: [onloadend] resolves with the
    part, [onerror] rejects with the event. *)
Definition fileToGenerativePart (env : Env) (file : File.t)
  : Promise GenerativePart :=
  base64String <- readAsDataURL env file ;;
  ret {| inlineData := {| data := base64Data_of base64String;
                          mimeType := File.type file |} |}.

(** [usage?.promptTokenCount || 0] and its two siblings. *)
Definition tokenUsage_of (usage : option UsageMetadata) : TokenUsage :=
  {| promptTokens := number_or (opt_chain usage promptTokenCount) zero;
     responseTokens := number_or (opt_chain usage candidatesTokenCount) zero;
     totalTokens := number_or (opt_chain usage totalTokenCount) zero |}.

(** The body of the [try] block of [parsePdfWithGemini]. *)
Definition parsePdfWithGemini_try (env : Env) (file : File.t)
  : Promise PdfParseResult :=
  pdfPart <- fileToGenerativePart env file ;;
  response <- generateContent env pdfPart ;;
  match truthy_text (text response) with
  | None => throw (Error "No response text received from Gemini.")
  | Some response_text =>
      jsonResult <- of_result (JSON_parse env response_text) ;;
      let usage := usageMetadata response in
      let tokenUsage := tokenUsage_of usage in
      ret (with_tokenUsage jsonResult tokenUsage)
  end.

(** The [catch] block logs and rethrows. *)
Definition parsePdfWithGemini (env : Env) (file : File.t)
  : Promise PdfParseResult :=
  try_catch (parsePdfWithGemini_try env file) (fun error => throw error).

(* ================================================================== *)
(** * [src/App.tsx]                                                    *)
(* ================================================================== *)

(** The four [useState] cells of [App]. *)
Record AppState : Type := {
  status : ParseStatus;
  result : option PdfParseResult;
  errorMsg : option string;
  file : option File.t
}.

Definition initialState : AppState :=
  {| status := IDLE; result := None; errorMsg := None; file := None |}.

Definition setStatus (s : ParseStatus) (st : AppState) : AppState :=
  {| status := s; result := result st; errorMsg := errorMsg st;
     file := file st |}.

Definition setResult (r : option PdfParseResult) (st : AppState) : AppState :=
  {| status := status st; result := r; errorMsg := errorMsg st;
     file := file st |}.

Definition setErrorMsg (m : option string) (st : AppState) : AppState :=
  {| status := status st; result := result st; errorMsg := m;
     file := file st |}.

Definition setFile (f : option File.t) (st : AppState) : AppState :=
  {| status := status st; result := result st; errorMsg := errorMsg st;
     file := f |}.

(** The state once [handleFileSelected] has run as far as it gets: through
    the [try] block, through the [catch] block, or, when the awaited promise
    never settles, up to the [await]. *)
Definition handleFileSelected (env : Env) (selectedFile : File.t)
    (st : AppState) : AppState :=
  let st := setStatus PROCESSING st in
  let st := setErrorMsg None st in
  let st := setFile (Some selectedFile) st in
  let st := setResult None st in
  match Promise_all2 (second_rejects_first env)
          (parsePdfWithGemini env selectedFile)
          (parsePdfLocal env selectedFile) with
  | Fulfilled (aiResult, rawText) =>
      let st := setResult (Some (with_standardRawText aiResult rawText)) st in
      setStatus SUCCESS st
  | Rejected err =>
      let st :=
        setErrorMsg
          (Some (string_or (message err)
                   "An unknown error occurred while parsing the PDF.")) st in
      setStatus ERROR st
  | Pending => st
  end.

Definition handleReset (st : AppState) : AppState :=
  let st := setStatus IDLE st in
  let st := setResult None st in
  let st := setErrorMsg None st in
  setFile None st.

(* ================================================================== *)
(** * [src/components/FileUpload.tsx]                                  *)
(* ================================================================== *)

(** What a handler of the upload widget does, in order. *)
Inductive Effect : Type :=
| preventDefault
| setIsDragging (b : bool)
| onFileSelected (f : File.t)
| alert (msg : string).

(** [e.dataTransfer.files] and [e.target.files]: a [FileList], or [null]. *)
Record DragEvent : Type := { dataTransfer_files : option (list File.t) }.
Record ChangeEvent : Type := { target_files : option (list File.t) }.

(** [files && files.length > 0], then the test on [files[0]]. *)
Definition select_first (files : option (list File.t)) : list Effect :=
  match files with
  | Some (file :: _) =>
      if String.eqb (File.type file) "application/pdf"
      then [onFileSelected file]
      else [alert "Please upload a PDF file."]
  | Some [] | None => []
  end.

Definition handleDrop (isLoading : bool) (e : DragEvent) : list Effect :=
  [preventDefault; setIsDragging false] ++
  (if isLoading then [] else select_first (dataTransfer_files e))%list.

Definition handleFileChange (isLoading : bool) (e : ChangeEvent)
  : list Effect :=
  if isLoading then [] else select_first (target_files e).

(** [App] renders [<FileUpload onFileSelected={handleFileSelected}
    isLoading={status === ParseStatus.PROCESSING} />]: the effects of a
    handler, carried out on the state of [App]. *)
Definition isLoading_of (st : AppState) : bool :=
  match status st with PROCESSING => true | _ => false end.

Definition perform (env : Env) (st : AppState) (eff : Effect) : AppState :=
  match eff with
  | onFileSelected f => handleFileSelected env f st
  | _ => st
  end.

Definition App_drop (env : Env) (e : DragEvent) (st : AppState) : AppState :=
  fold_left (perform env) (handleDrop (isLoading_of st) e) st.

Definition App_fileChange (env : Env) (e : ChangeEvent) (st : AppState)
  : AppState :=
  fold_left (perform env) (handleFileChange (isLoading_of st) e) st.

(* ================================================================== *)
(** * [src/components/JsonViewer.tsx]                                  *)
(* ================================================================== *)

(** [type Tab = 'ai-json' | 'raw-text' | 'transactions'] *)
Inductive Tab : Type := Tab_ai_json | Tab_raw_text | Tab_transactions.

Definition Tab_eqb (a b : Tab) : bool :=
  match a, b with
  | Tab_ai_json, Tab_ai_json
  | Tab_raw_text, Tab_raw_text
  | Tab_transactions, Tab_transactions => true
  | _, _ => false
  end.

Inductive JsonViewMode : Type := Mode_tree | Mode_raw.

(** [data.transactions && data.transactions.length > 0]: [undefined] when
    the list is absent, otherwise the comparison. *)
Definition hasTransactions (data : PdfParseResult) : option bool :=
  match transactions data with
  | None => None
  | Some txs => Some (0 <? List.length txs)%nat
  end.

(** ToBoolean on such a value, as [{hasTransactions && (...)}] tests it. *)
Definition truthy_flag (v : option bool) : bool :=
  match v with
  | Some true => true
  | _ => false
  end.

(** A button of the tab bar: the tab it activates, its label, and the count
    badge [{data.transactions?.length}] where it has one. *)
Record TabButton : Type := {
  activates : Tab;
  label : string;
  badge : option nat
}.

Definition tabButtons (data : PdfParseResult) : list TabButton :=
  ([ {| activates := Tab_ai_json; label := "AI JSON"; badge := None |} ]
   ++ (if truthy_flag (hasTransactions data)
       then [ {| activates := Tab_transactions; label := "Transactions";
                 badge := opt_chain (transactions data)
                            (fun txs => Some (List.length txs)) |} ]
       else [])
   ++ [ {| activates := Tab_raw_text; label := "Raw Text (Diff)";
           badge := None |} ])%list.

(** [activeTab] starts at ['ai-json'] and is only ever set by the [onClick]
    of a button of the tab bar.  A click on a tab whose button is not
    rendered cannot happen and leaves the state as it is. *)
Definition offered (data : PdfParseResult) (t : Tab) : bool :=
  existsb (fun b => Tab_eqb (activates b) t) (tabButtons data).

Definition clickTab (data : PdfParseResult) (activeTab t : Tab) : Tab :=
  if offered data t then t else activeTab.

Definition activeTab_after (data : PdfParseResult) (clicks : list Tab) : Tab :=
  fold_left (clickTab data) clicks Tab_ai_json.

(** *** The CSV export of [handleDownload] *)

Definition headers : list string :=
  ["Post Date"; "Trans Date"; "Description"; "Amount"; "Currency"].

(** The third element of a row: the template literal that puts the
    description between two double quotes, after [replace] has turned each
    double quote in it into two. *)
Definition quoted_description (t : Transaction) : string :=
  str1 dquote
  ++ replace_all dquote (String dquote (str1 dquote)) (description t)
  ++ str1 dquote.

(** One element of [rows], with the number already converted as [join]
    converts it. *)
Definition csv_row (env : Env) (t : Transaction) : list string :=
  [ post_date t; trans_date t; quoted_description t;
    Number_toString env (amount t); currency t ].

(** [[headers.join(','), ...(rows?.map(r => r.join(',')) || [])].join('\n')] *)
Definition csv_content (env : Env) (txs : option (list Transaction)) : string :=
  let rows := option_map (map (csv_row env)) txs in
  join (str1 newline)
       (join "," headers ::
        match option_map (map (join ",")) rows with
        | Some lines => lines
        | None => []
        end).

(** What [handleDownload] puts in the [Blob] and in the file extension. *)
Record Download : Type := {
  dl_content : string;
  dl_mimeType : string;
  dl_extension : string
}.

Definition handleDownload (env : Env) (data : PdfParseResult) (activeTab : Tab)
  : Download :=
  match activeTab with
  | Tab_ai_json =>
      {| dl_content := JSON_stringify env data;
         dl_mimeType := "application/json"; dl_extension := "json" |}
  | Tab_raw_text =>
      {| dl_content := string_or (standardRawText data) "";
         dl_mimeType := "text/plain"; dl_extension := "txt" |}
  | Tab_transactions =>
      {| dl_content := csv_content env (transactions data);
         dl_mimeType := "text/csv"; dl_extension := "csv" |}
  end.

(** *** The transaction table *)

(** The amount cell: its [className], and the three pieces of its text,
    [{tx.amount > 0 ? '' : '+'} {Math.abs(tx.amount).toFixed(2)} <span>{tx.currency}</span>]. *)
Record AmountCell : Type := {
  className : string;
  sign : string;
  magnitude : string;
  unit : string
}.

Definition amountCell (env : Env) (tx : Transaction) : AmountCell :=
  {| className :=
       "px-4 py-3 text-right font-mono font-medium whitespace-nowrap "
       ++ (if lt (amount tx) zero then "text-emerald-400"
           else "text-slate-200");
     sign := if gt (amount tx) zero then "" else "+";
     magnitude := toFixed (Number_toString env) 2 (Math_abs (amount tx));
     unit := currency tx |}.

(** The text of the cell as the browser shows it. *)
Definition cell_text (c : AmountCell) : string :=
  sign c ++ " " ++ magnitude c ++ " " ++ unit c.

Record TableRow : Type := {
  date_shown : string;
  post_shown : option string;
  description_shown : string;
  amount_shown : AmountCell
}.

Definition tableRow (env : Env) (tx : Transaction) : TableRow :=
  {| date_shown := trans_date tx;
     post_shown := if String.eqb (post_date tx) (trans_date tx) then None
                   else Some ("Post: " ++ post_date tx);
     description_shown := description tx;
     amount_shown := amountCell env tx |}.

(** The content area, by [activeTab]. *)
Inductive Content : Type :=
| Pane_json_raw (s : string)
| Pane_json_tree (data : PdfParseResult)
| Pane_raw_text (s : string)
| Pane_table (rows : list TableRow)
| Pane_nothing.

Definition contentArea (env : Env) (data : PdfParseResult) (activeTab : Tab)
    (jsonViewMode : JsonViewMode) : Content :=
  match activeTab with
  | Tab_ai_json =>
      match jsonViewMode with
      | Mode_raw => Pane_json_raw (JSON_stringify env data)
      | Mode_tree => Pane_json_tree data
      end
  | Tab_raw_text =>
      Pane_raw_text (string_or (standardRawText data) "No raw text extracted.")
  | Tab_transactions =>
      match transactions data with
      | Some txs => Pane_table (map (tableRow env) txs)
      | None => Pane_nothing
      end
  end.

(* ================================================================== *)
(** * The specification's terms                                        *)
(* ================================================================== *)

(** The ways the remote branch fails, with the value thrown in each: the
    file cannot be encoded, the call to the service fails, the service
    answers without text, or its text is not JSON. *)
Inductive remote_fails (env : Env) (file : File.t) : Thrown -> Prop :=
| fails_encoding (e : Thrown) :
    fileToGenerativePart env file = Rejected e ->
    remote_fails env file e
| fails_calling (pdfPart : GenerativePart) (e : Thrown) :
    fileToGenerativePart env file = Fulfilled pdfPart ->
    generateContent env pdfPart = Rejected e ->
    remote_fails env file e
| fails_no_text (pdfPart : GenerativePart) (response : GenerateContentResponse) :
    fileToGenerativePart env file = Fulfilled pdfPart ->
    generateContent env pdfPart = Fulfilled response ->
    truthy_text (text response) = None ->
    remote_fails env file (Error "No response text received from Gemini.")
| fails_parsing (pdfPart : GenerativePart) (response : GenerateContentResponse)
    (response_text : string) (e : Thrown) :
    fileToGenerativePart env file = Fulfilled pdfPart ->
    generateContent env pdfPart = Fulfilled response ->
    truthy_text (text response) = Some response_text ->
    JSON_parse env response_text = inl e ->
    remote_fails env file e.

(** The local branch's output as the specification words it: for pages 1
    to [numPages] in document order, the concatenation of one block per page,
    a block being the page-number marker, a blank line, the text of the page
    and a blank line.  [text_of i] is the text of page [i]. *)
Definition spec_page_marker (i : nat) : string :=
  "--- PAGE " ++ digits_of_nat i ++ " ---".

Definition blank_line : string := String newline (String newline "").

Definition spec_page_block (i : nat) (page_text : string) : string :=
  spec_page_marker i ++ blank_line ++ page_text ++ blank_line.

Definition spec_local_text (numPages : nat) (text_of : nat -> string) : string :=
  String.concat ""
    (map (fun i => spec_page_block i (text_of i)) (seq 1 numPages)).

(** The items of a page joined with single spaces. *)
Definition spec_page_text (textContent : TextContent) : string :=
  String.concat " " (map str (items textContent)).

(** The numbers [toFixed] prints in fixed notation: the finite ones whose
    magnitude is below [10^21]. *)
Definition fixed_notation (x : number) : bool :=
  match x with
  | S754_zero _ => true
  | S754_finite _ m e => negb (at_least_1e21 m e)
  | S754_infinity _ | S754_nan => false
  end.

(** The same transaction with the opposite amount. *)
Definition opposite (tx : Transaction) : Transaction :=
  {| post_date := post_date tx; trans_date := trans_date tx;
     description := description tx; amount := SFopp (amount tx);
     currency := currency tx |}.

(** Whether a string begins with a double quote. *)
Definition begins_with_dquote (s : string) : bool :=
  match s with
  | String a _ => Ascii.eqb a dquote
  | EmptyString => false
  end.

(** Reading a double-quoted CSV field back: after the opening quote, a
    doubled quote stands for one quote, a single quote closes the field, any
    other character stands for itself.  Gives the field and what follows
    it. *)
Fixpoint read_quoted_body (s : string) : option (string * string) :=
  match s with
  | EmptyString => None
  | String a rest =>
      if Ascii.eqb a dquote then
        match rest with
        | String b rest' =>
            if Ascii.eqb b dquote then
              match read_quoted_body rest' with
              | Some (field, after) => Some (String dquote field, after)
              | None => None
              end
            else Some (EmptyString, rest)
        | EmptyString => Some (EmptyString, EmptyString)
        end
      else
        match read_quoted_body rest with
        | Some (field, after) => Some (String a field, after)
        | None => None
        end
  end.

Definition read_quoted_field (s : string) : option (string * string) :=
  match s with
  | String a rest => if Ascii.eqb a dquote then read_quoted_body rest else None
  | EmptyString => None
  end.

(* ================================================================== *)
(** * Sample uploads                                                   *)
(* ================================================================== *)

Module Sample.

Definition q : string := str1 dquote.

Definition pdf_file : File.t :=
  {| File.name := "statement.pdf"; File.type := "application/pdf";
     File.bytes := [] |}.

Definition text_file : File.t :=
  {| File.name := "notes.txt"; File.type := "text/plain"; File.bytes := [] |}.

Definition purchase : Transaction :=
  {| post_date := "2026-01-03"; trans_date := "2026-01-02";
     description := "KEELLS SUPER COLOMBO";
     amount := of_Z 1500; currency := "LKR" |}.

Definition refund : Transaction :=
  {| post_date := "2026-01-05"; trans_date := "2026-01-05";
     description := "PAYMENT RECEIVED";
     amount := of_Z (-200); currency := "LKR" |}.

Definition quoted_purchase : Transaction :=
  {| post_date := "2026-01-07"; trans_date := "2026-01-06";
     description := "CAFE " ++ q ++ "LUNA" ++ q ++ ", KANDY";
     amount := of_Z 1500; currency := "LKR" |}.

Definition nil_amount : Transaction :=
  {| post_date := "2026-01-08"; trans_date := "2026-01-08";
     description := "FEE WAIVED";
     amount := S754_zero true; currency := "LKR" |}.

(** The remote service's answer, as text and as [JSON.parse] reads it. *)
Definition key (k : string) : string := q ++ k ++ q ++ ":".
Definition lit (s : string) : string := q ++ s ++ q.

Definition transaction_text (t : Transaction) (amount_digits : string) : string :=
  "{" ++ key "post_date" ++ lit (post_date t) ++ ","
      ++ key "trans_date" ++ lit (trans_date t) ++ ","
      ++ key "description" ++ lit (description t) ++ ","
      ++ key "amount" ++ amount_digits ++ ","
      ++ key "currency" ++ lit (currency t) ++ "}".

Definition response_text : string :=
  "{" ++ key "metadata" ++ "{" ++ key "title" ++ lit "Card statement" ++ ","
                               ++ key "author" ++ lit "Bank" ++ ","
                               ++ key "summary" ++ lit "January" ++ ","
                               ++ key "language" ++ lit "en" ++ ","
                               ++ key "topic" ++ lit "credit card" ++ "},"
      ++ key "transactions" ++ "[" ++ transaction_text purchase "1500.00" ++ ","
                                   ++ transaction_text refund "-200.00" ++ "],"
      ++ key "pages" ++ "[]}".

Definition parsed : PdfParseResult :=
  {| metadata := {| title := "Card statement"; author := "Bank";
                    summary := "January"; language := "en";
                    topic := "credit card" |};
     pages := [];
     transactions := Some [purchase; refund];
     standardRawText := None;
     tokenUsage := None |}.

Definition parse (s : string) : Thrown + PdfParseResult :=
  if String.eqb s response_text then inr parsed
  else inl (Error "Unexpected token in JSON").

(** Number::toString on the numbers the samples print: the integers below
    [10^21], the zeros and the non-finite numbers. *)
Definition toString (x : number) : string :=
  match x with
  | S754_zero _ => "0"
  | S754_nan => "NaN"
  | S754_infinity s => if s then "-Infinity" else "Infinity"
  | S754_finite s m e =>
      (if s then "-" else "") ++
      match e with
      | Zneg d => digits_of_Z (Zpos m / 2 ^ Zpos d)
      | _ => digits_of_Z (Zpos m * 2 ^ e)
      end
  end.

Definition usage : UsageMetadata :=
  {| promptTokenCount := Some (of_Z 1200);
     candidatesTokenCount := None;
     totalTokenCount := Some (of_Z 1200) |}.

Definition response : GenerateContentResponse :=
  {| text := Some response_text; usageMetadata := Some usage |}.

Definition page_one : PDFPageProxy :=
  {| getTextContent :=
       Fulfilled {| items := [ {| str := "Card" |}; {| str := "statement" |} ] |} |}.

Definition page_two : PDFPageProxy :=
  {| getTextContent :=
       Fulfilled {| items := [ {| str := "Total" |}; {| str := "1300.00" |};
                               {| str := "LKR" |} ] |} |}.

Definition document : PDFDocumentProxy :=
  {| numPages := 2;
     getPage := fun i =>
       match i with
       | 1 => Fulfilled page_one
       | 2 => Fulfilled page_two
       | _ => Rejected (Error "Invalid page request.")
       end |}.

(** A document whose second page cannot be read. *)
Definition damaged_document : PDFDocumentProxy :=
  {| numPages := 2;
     getPage := fun i =>
       match i with
       | 1 => Fulfilled page_one
       | _ => Rejected (Error "Invalid page request.")
       end |}.

(** Both branches complete. *)
Definition env : Env :=
  {| Number_toString := toString;
     JSON_parse := parse;
     JSON_stringify := fun _ => response_text;
     readAsDataURL := fun _ => Fulfilled "data:application/pdf;base64,JVBERi0=";
     generateContent := fun _ => Fulfilled response;
     arrayBuffer := fun f => Fulfilled (File.bytes f);
     getDocument := fun _ => Fulfilled document;
     second_rejects_first := false |}.

Definition with_document (e : Env) (d : Promise PDFDocumentProxy) : Env :=
  {| Number_toString := Number_toString e;
     JSON_parse := JSON_parse e;
     JSON_stringify := JSON_stringify e;
     readAsDataURL := readAsDataURL e;
     generateContent := generateContent e;
     arrayBuffer := arrayBuffer e;
     getDocument := fun _ => d;
     second_rejects_first := second_rejects_first e |}.

Definition with_response (e : Env) (r : Promise GenerateContentResponse)
  : Env :=
  {| Number_toString := Number_toString e;
     JSON_parse := JSON_parse e;
     JSON_stringify := JSON_stringify e;
     readAsDataURL := readAsDataURL e;
     generateContent := fun _ => r;
     arrayBuffer := arrayBuffer e;
     getDocument := getDocument e;
     second_rejects_first := second_rejects_first e |}.

(** The local branch throws on page 2; the remote branch completes. *)
Definition env_damaged : Env :=
  with_document env (Fulfilled damaged_document).

(** The local branch throws while loading the document. *)
Definition env_unreadable : Env :=
  with_document env (Rejected (Error "Invalid PDF structure.")).

(** The remote service answers without text. *)
Definition env_no_text : Env :=
  with_response env
    (Fulfilled {| text := None; usageMetadata := Some usage |}).

(** The remote service answers with text that is not JSON. *)
Definition env_bad_json : Env :=
  with_response env
    (Fulfilled {| text := Some "Sorry, I cannot read this file.";
                  usageMetadata := None |}).

(** The call to the remote service fails. *)
Definition env_quota : Env :=
  with_response env (Rejected (Error "429 quota exceeded")).

(** The remote service answers without usage metadata. *)
Definition env_no_usage : Env :=
  with_response env
    (Fulfilled {| text := Some response_text; usageMetadata := None |}).

(** What the two branches return on [env]. *)
Definition nl : string := str1 newline.

Definition raw_text : string :=
  "--- PAGE 1 ---" ++ nl ++ nl ++ "Card statement" ++ nl ++ nl ++
  "--- PAGE 2 ---" ++ nl ++ nl ++ "Total 1300.00 LKR" ++ nl ++ nl.

Definition ai_result : PdfParseResult :=
  with_tokenUsage parsed
    {| promptTokens := of_Z 1200; responseTokens := zero;
       totalTokens := of_Z 1200 |}.

Definition part : GenerativePart :=
  {| inlineData := {| data := Some "JVBERi0=";
                      mimeType := "application/pdf" |} |}.

Definition response_no_usage : GenerateContentResponse :=
  {| text := Some response_text; usageMetadata := None |}.

Definition text_content (i : nat) : TextContent :=
  match i with
  | 1 => {| items := [ {| str := "Card" |}; {| str := "statement" |} ] |}
  | _ => {| items := [ {| str := "Total" |}; {| str := "1300.00" |};
                       {| str := "LKR" |} ] |}
  end.

End Sample.

(* ================================================================== *)
(** * [src/App.tsx]: what is rendered, and the events                  *)
(* ================================================================== *)

(** [fileUrl] is [URL.createObjectURL(file)], a non-empty string, when there
    is a file, and [null] otherwise: it is truthy exactly when [file] is
    set. *)
Definition has_fileUrl (st : AppState) : bool :=
  match file st with Some _ => true | None => false end.

(** The block of the upload screen:
    [status === IDLE || status === PROCESSING || status === ERROR]. *)
Definition showsUpload (st : AppState) : bool :=
  match status st with
  | IDLE | PROCESSING | ERROR => true
  | SUCCESS => false
  end.

(** The split screen: [status === SUCCESS && result && fileUrl]. *)
Definition showsViewer (st : AppState) : bool :=
  match status st, result st with
  | SUCCESS, Some _ => has_fileUrl st
  | _, _ => false
  end.

(** The usage widget: [status === SUCCESS && result?.tokenUsage]. *)
Definition showsUsage (st : AppState) : bool :=
  match status st, opt_chain (result st) tokenUsage with
  | SUCCESS, Some _ => true
  | _, _ => false
  end.

(** The [New File] button: [status === SUCCESS]. *)
Definition showsReset (st : AppState) : bool :=
  match status st with SUCCESS => true | _ => false end.

(** What the user can do: drop files on the widget, choose files in its
    input, press [New File].  The widget and the button receive events only
    while they are rendered.  An upload is followed to its end before the
    next event: while it is in flight the state is in [PROCESSING], where the
    widget is loading and the button is absent, so that the events arriving
    in between do nothing. *)
Inductive AppEvent : Type :=
| Ev_drop (e : DragEvent)
| Ev_change (e : ChangeEvent)
| Ev_reset.

Definition App_step (env : Env) (st : AppState) (ev : AppEvent) : AppState :=
  match ev with
  | Ev_drop e => if showsUpload st then App_drop env e st else st
  | Ev_change e => if showsUpload st then App_fileChange env e st else st
  | Ev_reset => if showsReset st then handleReset st else st
  end.

Definition App_run (env : Env) (events : list AppEvent) : AppState :=
  fold_left (App_step env) events initialState.

(** The four cells agree with [status]: a result (carrying the local text
    and the token usage) exactly in [SUCCESS], a non-empty message exactly in
    [ERROR], a file, of type PDF, in every state but [IDLE]. *)
Definition coherent (st : AppState) : Prop :=
  (forall f, file st = Some f -> File.type f = "application/pdf") /\
  match status st with
  | IDLE => result st = None /\ errorMsg st = None /\ file st = None
  | PROCESSING => result st = None /\ errorMsg st = None /\ file st <> None
  | SUCCESS =>
      (exists r, result st = Some r /\ standardRawText r <> None /\
                 tokenUsage r <> None) /\
      errorMsg st = None /\ file st <> None
  | ERROR =>
      result st = None /\
      (exists msg, errorMsg st = Some msg /\ msg <> "") /\
      file st <> None
  end.

(** A state is either the initial one or what one upload of a PDF file
    leaves. *)
Definition one_upload (env : Env) (st : AppState) : Prop :=
  st = initialState \/
  exists f, File.type f = "application/pdf" /\
            st = handleFileSelected env f initialState.

(* ================================================================== *)
(** * [src/components/FileUpload.tsx]: the drag handlers               *)
(* ================================================================== *)

Definition handleDragOver : list Effect := [preventDefault; setIsDragging true].
Definition handleDragLeave : list Effect := [preventDefault; setIsDragging false].

Definition is_call (eff : Effect) : bool :=
  match eff with onFileSelected _ => true | _ => false end.

Definition is_alert (eff : Effect) : bool :=
  match eff with alert _ => true | _ => false end.

(* ================================================================== *)
(** * [src/components/JsonViewer.tsx]: the name of the download        *)
(* ================================================================== *)

(** The characters of a string stand for its code units. *)
Fixpoint string_forallb (p : ascii -> bool) (s : string) : bool :=
  match s with
  | EmptyString => true
  | String c rest => p c && string_forallb p rest
  end.

Fixpoint string_map (f : ascii -> ascii) (s : string) : string :=
  match s with
  | EmptyString => EmptyString
  | String c rest => String (f c) (string_map f rest)
  end.

Definition in_range (lo hi c : ascii) : bool :=
  (nat_of_ascii lo <=? nat_of_ascii c)%nat
  && (nat_of_ascii c <=? nat_of_ascii hi)%nat.

(** The class [[a-zA-Z0-9._-]]. *)
Definition is_safe_char (c : ascii) : bool :=
  in_range "a" "z" c || in_range "A" "Z" c || in_range "0" "9" c
  || Ascii.eqb c "." || Ascii.eqb c "_" || Ascii.eqb c "-".

(** [s.replace(/[^a-zA-Z0-9._-]/g, '_')] *)
Definition sanitize (s : string) : string :=
  string_map (fun c => if is_safe_char c then c else "_"%char) s.

(** The class [[^/.]]. *)
Definition is_ext_char (c : ascii) : bool :=
  negb (Ascii.eqb c "/" || Ascii.eqb c ".").

(** [s.replace(/\.[^/.]+$/, )] with the empty replacement: the leftmost
    place where a dot is followed, up to the end, by one or more characters
    other than slash and dot is where the string is cut. *)
Fixpoint strip_extension (s : string) : string :=
  match s with
  | EmptyString => EmptyString
  | String c rest =>
      if Ascii.eqb c "."
         && negb (String.eqb rest "")
         && string_forallb is_ext_char rest
      then EmptyString
      else String c (strip_extension rest)
  end.

(** [fileName ? fileName.replace(...).replace(...) : ...] with the default
    name for an absent or empty [fileName]. *)
Definition safeFileName (fileName : option string) : string :=
  match truthy_text fileName with
  | Some name => strip_extension (sanitize name)
  | None => "parsed-output"
  end.

Definition Tab_name (t : Tab) : string :=
  match t with
  | Tab_ai_json => "ai-json"
  | Tab_raw_text => "raw-text"
  | Tab_transactions => "transactions"
  end.

(** [link.download = `${safeFileName}_${activeTab}.${extension}`] *)
Definition download_name (env : Env) (data : PdfParseResult)
    (fileName : option string) (activeTab : Tab) : string :=
  safeFileName fileName ++ "_" ++ Tab_name activeTab ++ "."
  ++ dl_extension (handleDownload env data activeTab).

(* ================================================================== *)
(** * Reading a CSV row back                                           *)
(* ================================================================== *)

(** Whether a character occurs in a string. *)
Definition has_char (c : ascii) (s : string) : bool :=
  negb (string_forallb (fun a => negb (Ascii.eqb a c)) s).






(* ================================================================== *)
(** * Further samples                                                  *)
(* ================================================================== *)

Module Events.

Definition drop_pdf : AppEvent :=
  Ev_drop {| dataTransfer_files := Some [Sample.pdf_file; Sample.text_file] |}.

Definition drop_text : AppEvent :=
  Ev_drop {| dataTransfer_files := Some [Sample.text_file; Sample.pdf_file] |}.

Definition choose_pdf : AppEvent :=
  Ev_change {| target_files := Some [Sample.pdf_file] |}.

(** A document without pages. *)
Definition empty_document : PDFDocumentProxy :=
  {| numPages := 0;
     getPage := fun _ => Rejected (Error "Invalid page request.") |}.

Definition env_empty : Env :=
  Sample.with_document Sample.env (Fulfilled empty_document).

(** The remote service never answers. *)
Definition env_silent : Env := Sample.with_response Sample.env Pending.

End Events.

(* ================================================================== *)
(** * Properties                                                       *)
(* ================================================================== *)

(** ** Strings *)

Lemma append_nil_r (s : string) : s ++ "" = s.
Proof. induction s as [|a s IH]; simpl; [reflexivity | now rewrite IH]. Qed.

Lemma append_assoc (a b c : string) : (a ++ b) ++ c = a ++ (b ++ c).
Proof. induction a as [|x a IH]; simpl; [reflexivity | now rewrite IH]. Qed.

Lemma concat_empty_cons (x : string) (xs : list string) :
  String.concat "" (x :: xs) = x ++ String.concat "" xs.
Proof.
  destruct xs as [|y ys]; simpl.
  - symmetry; apply append_nil_r.
  - reflexivity.
Qed.

(** ** Numbers *)

Example of_Z_1500 : of_Z 1500 = S754_finite false 6597069766656000 (-42).
Proof. reflexivity. Qed.

Example of_Z_minus_200 : of_Z (-200) = S754_finite true 7036874417766400 (-45).
Proof. reflexivity. Qed.

(** [toFixed] rounds the exact value, the larger candidate on a tie:
    [(2.5).toFixed(0)] is 3, [(0.125).toFixed(2)] is 0.13, and
    [(1.005).toFixed(2)] is 1.00 since the binary64 nearest to 1.005 lies
    below it. *)
Example toFixed_samples (Number_toString : number -> string) :
  toFixed Number_toString 2 (of_Z 1500) = "1500.00" /\
  toFixed Number_toString 2 (of_Z (-200)) = "-200.00" /\
  toFixed Number_toString 0 (S754_finite false 5 (-1)) = "3" /\
  toFixed Number_toString 2 (S754_finite false 4503599627370496 (-55)) = "0.13" /\
  toFixed Number_toString 2 (S754_finite false 4526117625507348 (-52)) = "1.00" /\
  toFixed Number_toString 2 (S754_finite false 5 (-2)) = "1.25" /\
  toFixed Number_toString 2 (S754_zero true) = "0.00".
Proof. repeat split; vm_compute; reflexivity. Qed.

Example digits_of_nat_samples :
  map digits_of_nat [0; 7; 10; 123] = ["0"; "7"; "10"; "123"].
Proof. reflexivity. Qed.

Example split_samples :
  split comma "data:application/pdf;base64,JVBERi0=" =
    ["data:application/pdf;base64"; "JVBERi0="] /\
  split comma "" = [""] /\
  split comma "a," = ["a"; ""].
Proof. repeat split. Qed.

(** ** Promises *)

Lemma try_catch_fulfilled {A} (body : Promise A) handler (a : A) :
  body = Fulfilled a -> try_catch body handler = Fulfilled a.
Proof. intros ->; reflexivity. Qed.

Lemma try_catch_rethrow {A} (body : Promise A) :
  try_catch body (fun error => throw error) = body.
Proof. destruct body; reflexivity. Qed.

Lemma Promise_all2_fulfilled {A B} o (p1 : Promise A) (p2 : Promise B) a b :
  p1 = Fulfilled a -> p2 = Fulfilled b ->
  Promise_all2 o p1 p2 = Fulfilled (a, b).
Proof. intros -> ->; reflexivity. Qed.

(** A rejection of the first promise is the outcome of [Promise.all] as soon
    as the second one cannot reject. *)
Lemma Promise_all2_rejected_l {A B} o (p1 : Promise A) (p2 : Promise B) e :
  p1 = Rejected e -> (forall e', p2 <> Rejected e') ->
  Promise_all2 o p1 p2 = Rejected e.
Proof.
  intros -> Hno. destruct p2 as [b|e'|]; simpl; try reflexivity.
  exfalso; exact (Hno e' eq_refl).
Qed.

(** ** The local branch *)

(** [parsePdfLocal] settles with a string or not at all: its [catch] block
    lets nothing through. *)
Lemma parsePdfLocal_never_rejects (env : Env) (file : File.t) (e : Thrown) :
  parsePdfLocal env file <> Rejected e.
Proof.
  unfold parsePdfLocal.
  destruct (parsePdfLocal_try env file); simpl; discriminate.
Qed.

Lemma parsePdfLocal_caught (env : Env) (file : File.t) (e : Thrown) :
  parsePdfLocal_try env file = Rejected e ->
  parsePdfLocal env file = Fulfilled local_failure_text.
Proof. unfold parsePdfLocal; intros ->; reflexivity. Qed.

(** The loop, when every page it still has to visit can be read. *)
Lemma pages_loop_readable (pdf : PDFDocumentProxy) (texts : nat -> TextContent) :
  forall remaining i fullText,
    (forall j, i <= j < i + remaining ->
       exists page, getPage pdf j = Fulfilled page /\
                    getTextContent page = Fulfilled (texts j)) ->
    pages_loop pdf remaining i fullText =
    Fulfilled (fullText ++
               String.concat ""
                 (map (fun j => page_block j (pageText_of (texts j)))
                      (seq i remaining))).
Proof.
  induction remaining as [|remaining IH]; intros i fullText Hpages.
  - simpl. now rewrite append_nil_r.
  - destruct (Hpages i ltac:(lia)) as (page & Hpage & Htext).
    cbn [pages_loop]. rewrite Hpage. cbn [await]. rewrite Htext. cbn [await].
    rewrite IH by (intros j Hj; apply Hpages; lia).
    cbn [seq map]. rewrite concat_empty_cons, append_assoc. reflexivity.
Qed.

(** The loop rejects when, after [k] readable pages, the next page or its
    text content cannot be read. *)
Lemma pages_loop_stops (pdf : PDFDocumentProxy) (texts : nat -> TextContent)
    (e : Thrown) :
  forall k remaining i fullText,
    k < remaining ->
    (forall j, i <= j < i + k ->
       exists page, getPage pdf j = Fulfilled page /\
                    getTextContent page = Fulfilled (texts j)) ->
    (getPage pdf (i + k) = Rejected e \/
     exists page, getPage pdf (i + k) = Fulfilled page /\
                  getTextContent page = Rejected e) ->
    pages_loop pdf remaining i fullText = Rejected e.
Proof.
  induction k as [|k IH]; intros remaining i fullText Hlt Hread Hbad;
    (destruct remaining as [|remaining]; [lia|]); cbn [pages_loop].
  - rewrite Nat.add_0_r in Hbad.
    destruct Hbad as [Hpage | (page & Hpage & Htext)]; rewrite Hpage; cbn [await];
      [reflexivity | now rewrite Htext].
  - destruct (Hread i ltac:(lia)) as (page & Hpage & Htext).
    rewrite Hpage; cbn [await]. rewrite Htext; cbn [await].
    apply IH; [lia | intros j Hj; apply Hread; lia |].
    now replace (S i + k) with (i + S k) by lia.
Qed.

(** The places where the body of [parsePdfLocal] throws: reading the file,
    loading the document, fetching a page, extracting its text. *)
Lemma parsePdfLocal_try_throw_sites (env : Env) (file : File.t) (e : Thrown) :
  arrayBuffer env file = Rejected e \/
  (exists buffer,
     arrayBuffer env file = Fulfilled buffer /\
     getDocument env buffer = Rejected e) \/
  (exists buffer pdf texts k,
     arrayBuffer env file = Fulfilled buffer /\
     getDocument env buffer = Fulfilled pdf /\
     k < numPages pdf /\
     (forall j, 1 <= j < 1 + k ->
        exists page, getPage pdf j = Fulfilled page /\
                     getTextContent page = Fulfilled (texts j)) /\
     (getPage pdf (1 + k) = Rejected e \/
      exists page, getPage pdf (1 + k) = Fulfilled page /\
                   getTextContent page = Rejected e)) ->
  parsePdfLocal_try env file = Rejected e.
Proof.
  unfold parsePdfLocal_try.
  intros [Hbuf | [(buffer & Hbuf & Hdoc) |
                  (buffer & pdf & texts & k & Hbuf & Hdoc & Hk & Hread & Hbad)]].
  - now rewrite Hbuf.
  - rewrite Hbuf; cbn [await]. now rewrite Hdoc.
  - rewrite Hbuf; cbn [await]. rewrite Hdoc; cbn [await].
    now apply (pages_loop_stops pdf texts e k).
Qed.

(** ** The remote branch *)

Lemma parsePdfWithGemini_rethrows (env : Env) (file : File.t) :
  parsePdfWithGemini env file = parsePdfWithGemini_try env file.
Proof. apply try_catch_rethrow. Qed.

Lemma remote_fails_rejected (env : Env) (file : File.t) (e : Thrown) :
  remote_fails env file e -> parsePdfWithGemini env file = Rejected e.
Proof.
  intros H. rewrite parsePdfWithGemini_rethrows. unfold parsePdfWithGemini_try.
  destruct H as [e H1 | part e H1 H2 | part r H1 H2 H3 | part r txt e H1 H2 H3 H4];
    rewrite H1; cbn [await]; try reflexivity;
    rewrite H2; cbn [await]; try reflexivity;
    rewrite H3; try reflexivity.
  rewrite H4. reflexivity.
Qed.

(** Conversely every rejection of the remote branch is one of those. *)
Lemma rejected_remote_fails (env : Env) (file : File.t) (e : Thrown) :
  parsePdfWithGemini env file = Rejected e -> remote_fails env file e.
Proof.
  rewrite parsePdfWithGemini_rethrows. unfold parsePdfWithGemini_try.
  destruct (fileToGenerativePart env file) as [part|e1|] eqn:H1;
    cbn [await]; [| intros [= <-]; now apply fails_encoding | discriminate].
  destruct (generateContent env part) as [r|e2|] eqn:H2;
    cbn [await]; [| intros [= <-]; now eapply fails_calling; eauto | discriminate].
  destruct (truthy_text (text r)) as [txt|] eqn:H3.
  - destruct (JSON_parse env txt) as [e3|json] eqn:H4; cbn.
    + intros [= <-]. eapply fails_parsing; eauto.
    + discriminate.
  - intros [= <-]. eapply fails_no_text; eauto.
Qed.

(** What the remote branch returns when it completes. *)
Lemma parsePdfWithGemini_completes (env : Env) (file : File.t)
    (pdfPart : GenerativePart) (response : GenerateContentResponse)
    (response_text : string) (jsonResult : PdfParseResult) :
  fileToGenerativePart env file = Fulfilled pdfPart ->
  generateContent env pdfPart = Fulfilled response ->
  truthy_text (text response) = Some response_text ->
  JSON_parse env response_text = inr jsonResult ->
  parsePdfWithGemini env file =
  Fulfilled (with_tokenUsage jsonResult (tokenUsage_of (usageMetadata response))).
Proof.
  intros H1 H2 H3 H4. rewrite parsePdfWithGemini_rethrows.
  unfold parsePdfWithGemini_try. rewrite H1; cbn [await]. rewrite H2; cbn [await].
  rewrite H3, H4. reflexivity.
Qed.

(** ** The dispatch *)

Lemma handleFileSelected_success (env : Env) (selectedFile : File.t)
    (st : AppState) (aiResult : PdfParseResult) (rawText : string) :
  parsePdfWithGemini env selectedFile = Fulfilled aiResult ->
  parsePdfLocal env selectedFile = Fulfilled rawText ->
  handleFileSelected env selectedFile st =
  {| status := SUCCESS;
     result := Some (with_standardRawText aiResult rawText);
     errorMsg := None;
     file := Some selectedFile |}.
Proof.
  intros Hai Hraw. unfold handleFileSelected.
  rewrite (Promise_all2_fulfilled _ _ _ _ _ Hai Hraw). reflexivity.
Qed.

Lemma handleFileSelected_error (env : Env) (selectedFile : File.t)
    (st : AppState) (err : Thrown) :
  parsePdfWithGemini env selectedFile = Rejected err ->
  handleFileSelected env selectedFile st =
  {| status := ERROR;
     result := None;
     errorMsg := Some (string_or (message err)
                         "An unknown error occurred while parsing the PDF.");
     file := Some selectedFile |}.
Proof.
  intros Hai. unfold handleFileSelected.
  rewrite (Promise_all2_rejected_l _ _ _ _ Hai
             (parsePdfLocal_never_rejects env selectedFile)).
  reflexivity.
Qed.

(** ** The claims on the dispatch and the merge *)

(** The merge changes the [standardRawText] property and no other. *)
Lemma with_standardRawText_frame (r : PdfParseResult) (t name : string) :
  name <> "standardRawText" ->
  property (with_standardRawText r t) name = property r name.
Proof.
  intros Hname. unfold property. cbn [metadata pages transactions tokenUsage].
  destruct (String.eqb_spec name "standardRawText") as [Heq|_];
    [contradiction|].
  reflexivity.
Qed.

(** C1.  When the remote branch completes with [aiResult] and the local
    branch with [rawText], the result stored by [handleFileSelected] has every
    property of [aiResult] other than [standardRawText] unchanged (its
    metadata, pages, transactions and token usage), and its
    [standardRawText] is [rawText]. *)
Theorem merge_keeps_remote_fields (env : Env) (selectedFile : File.t)
    (st : AppState) (aiResult : PdfParseResult) (rawText : string) :
  parsePdfWithGemini env selectedFile = Fulfilled aiResult ->
  parsePdfLocal env selectedFile = Fulfilled rawText ->
  exists merged,
    result (handleFileSelected env selectedFile st) = Some merged /\
    (forall name, name <> "standardRawText" ->
                  property merged name = property aiResult name) /\
    property merged "standardRawText" = Some (P_text rawText) /\
    metadata merged = metadata aiResult /\
    pages merged = pages aiResult /\
    transactions merged = transactions aiResult /\
    tokenUsage merged = tokenUsage aiResult /\
    standardRawText merged = Some rawText.
Proof.
  intros Hai Hraw.
  rewrite (handleFileSelected_success _ _ _ _ _ Hai Hraw).
  exists (with_standardRawText aiResult rawText).
  split; [reflexivity|].
  split; [intros name; apply with_standardRawText_frame|].
  repeat split.
Qed.

Lemma merge_keeps_remote_fields_sample :
  parsePdfWithGemini Sample.env Sample.pdf_file = Fulfilled Sample.ai_result /\
  parsePdfLocal Sample.env Sample.pdf_file = Fulfilled Sample.raw_text /\
  exists merged,
    result (handleFileSelected Sample.env Sample.pdf_file initialState)
      = Some merged /\
    (forall name, name <> "standardRawText" ->
                  property merged name = property Sample.ai_result name) /\
    property merged "standardRawText" = Some (P_text Sample.raw_text) /\
    metadata merged = metadata Sample.ai_result /\
    pages merged = pages Sample.ai_result /\
    transactions merged = transactions Sample.ai_result /\
    tokenUsage merged = tokenUsage Sample.ai_result /\
    standardRawText merged = Some Sample.raw_text.
Proof.
  split; [vm_compute; reflexivity|].
  split; [vm_compute; reflexivity|].
  apply (merge_keeps_remote_fields Sample.env Sample.pdf_file initialState
           Sample.ai_result Sample.raw_text);
    vm_compute; reflexivity.
Defined.

(** C2.  When the body of [parsePdfLocal] throws, wherever it does, the
    function does not reject: it returns the fixed text
    "Error: Could not extract raw text from PDF for comparison.".  If the
    remote branch completes, [handleFileSelected] then ends in [SUCCESS] with
    that text as the [standardRawText] of the stored result. *)
Theorem local_failure_yields_sentinel (env : Env) (file : File.t) (e : Thrown) :
  parsePdfLocal_try env file = Rejected e ->
  parsePdfLocal env file =
    Fulfilled "Error: Could not extract raw text from PDF for comparison." /\
  forall (st : AppState) (aiResult : PdfParseResult),
    parsePdfWithGemini env file = Fulfilled aiResult ->
    status (handleFileSelected env file st) = SUCCESS /\
    exists merged,
      result (handleFileSelected env file st) = Some merged /\
      standardRawText merged =
        Some "Error: Could not extract raw text from PDF for comparison.".
Proof.
  intros Hthrow.
  pose proof (parsePdfLocal_caught _ _ _ Hthrow) as Hlocal.
  split; [exact Hlocal|].
  intros st aiResult Hai.
  rewrite (handleFileSelected_success _ _ _ _ _ Hai Hlocal).
  split; [reflexivity|].
  eexists; split; reflexivity.
Qed.

Lemma local_failure_yields_sentinel_sample :
  parsePdfLocal_try Sample.env_damaged Sample.pdf_file
    = Rejected (Error "Invalid page request.") /\
  parsePdfLocal_try Sample.env_unreadable Sample.pdf_file
    = Rejected (Error "Invalid PDF structure.") /\
  parsePdfLocal Sample.env_damaged Sample.pdf_file =
    Fulfilled "Error: Could not extract raw text from PDF for comparison." /\
  parsePdfLocal Sample.env_unreadable Sample.pdf_file =
    Fulfilled "Error: Could not extract raw text from PDF for comparison." /\
  status (handleFileSelected Sample.env_damaged Sample.pdf_file initialState)
    = SUCCESS /\
  exists merged,
    result (handleFileSelected Sample.env_damaged Sample.pdf_file initialState)
      = Some merged /\
    standardRawText merged =
      Some "Error: Could not extract raw text from PDF for comparison.".
Proof.
  assert (Hdamaged : parsePdfLocal_try Sample.env_damaged Sample.pdf_file
                     = Rejected (Error "Invalid page request."))
    by (vm_compute; reflexivity).
  assert (Hunreadable : parsePdfLocal_try Sample.env_unreadable Sample.pdf_file
                        = Rejected (Error "Invalid PDF structure."))
    by (vm_compute; reflexivity).
  split; [exact Hdamaged|]. split; [exact Hunreadable|].
  destruct (local_failure_yields_sentinel _ _ _ Hdamaged) as (Hlocal & Hall).
  split; [exact Hlocal|].
  split; [exact (proj1 (local_failure_yields_sentinel _ _ _ Hunreadable))|].
  apply (Hall initialState Sample.ai_result). vm_compute; reflexivity.
Defined.

(** C3.  When the remote branch fails with [e] (the file cannot be encoded,
    the call throws, the answer carries no text, or the text is not JSON),
    [parsePdfWithGemini] rejects with that same [e], and
    [handleFileSelected] ends in [ERROR] with no stored result and with the
    message of [e] (or the default one) as [errorMsg]. *)
Theorem remote_failure_is_error (env : Env) (selectedFile : File.t)
    (e : Thrown) :
  remote_fails env selectedFile e ->
  parsePdfWithGemini env selectedFile = Rejected e /\
  forall st : AppState,
    status (handleFileSelected env selectedFile st) = ERROR /\
    result (handleFileSelected env selectedFile st) = None /\
    errorMsg (handleFileSelected env selectedFile st) =
      Some (string_or (message e)
              "An unknown error occurred while parsing the PDF.").
Proof.
  intros Hfail.
  pose proof (remote_fails_rejected _ _ _ Hfail) as Hrej.
  split; [exact Hrej|].
  intros st. rewrite (handleFileSelected_error _ _ _ _ Hrej).
  repeat split.
Qed.

Lemma remote_failure_is_error_sample :
  remote_fails Sample.env_no_text Sample.pdf_file
    (Error "No response text received from Gemini.") /\
  remote_fails Sample.env_bad_json Sample.pdf_file
    (Error "Unexpected token in JSON") /\
  remote_fails Sample.env_quota Sample.pdf_file
    (Error "429 quota exceeded") /\
  handleFileSelected Sample.env_no_text Sample.pdf_file initialState =
    {| status := ERROR; result := None;
       errorMsg := Some "No response text received from Gemini.";
       file := Some Sample.pdf_file |} /\
  handleFileSelected Sample.env_bad_json Sample.pdf_file initialState =
    {| status := ERROR; result := None;
       errorMsg := Some "Unexpected token in JSON";
       file := Some Sample.pdf_file |} /\
  handleFileSelected Sample.env_quota Sample.pdf_file initialState =
    {| status := ERROR; result := None;
       errorMsg := Some "429 quota exceeded";
       file := Some Sample.pdf_file |} /\
  (forall st : AppState,
     status (handleFileSelected Sample.env_no_text Sample.pdf_file st) = ERROR /\
     result (handleFileSelected Sample.env_no_text Sample.pdf_file st) = None) /\
  (forall st : AppState,
     status (handleFileSelected Sample.env_bad_json Sample.pdf_file st) = ERROR /\
     result (handleFileSelected Sample.env_bad_json Sample.pdf_file st) = None) /\
  (forall st : AppState,
     status (handleFileSelected Sample.env_quota Sample.pdf_file st) = ERROR /\
     result (handleFileSelected Sample.env_quota Sample.pdf_file st) = None).
Proof.
  assert (Hno_text : remote_fails Sample.env_no_text Sample.pdf_file
                       (Error "No response text received from Gemini.")).
  { eapply fails_no_text; vm_compute; reflexivity. }
  assert (Hbad_json : remote_fails Sample.env_bad_json Sample.pdf_file
                        (Error "Unexpected token in JSON")).
  { eapply fails_parsing; vm_compute; reflexivity. }
  assert (Hquota : remote_fails Sample.env_quota Sample.pdf_file
                     (Error "429 quota exceeded")).
  { eapply fails_calling; vm_compute; reflexivity. }
  repeat (split; [first [assumption | vm_compute; reflexivity]|]).
  split; [|split]; intros st.
  - destruct (proj2 (remote_failure_is_error _ _ _ Hno_text) st) as (? & ? & _).
    now split.
  - destruct (proj2 (remote_failure_is_error _ _ _ Hbad_json) st) as (? & ? & _).
    now split.
  - destruct (proj2 (remote_failure_is_error _ _ _ Hquota) st) as (? & ? & _).
    now split.
Defined.

(** C7.  The result of a remote call that completes carries a [tokenUsage]
    in which every counter whose source is missing (the usage metadata as a
    whole, or that one counter) is zero. *)
Theorem absent_usage_counters_are_zero (env : Env) (file : File.t)
    (pdfPart : GenerativePart) (response : GenerateContentResponse)
    (response_text : string) (jsonResult : PdfParseResult) :
  fileToGenerativePart env file = Fulfilled pdfPart ->
  generateContent env pdfPart = Fulfilled response ->
  truthy_text (text response) = Some response_text ->
  JSON_parse env response_text = inr jsonResult ->
  exists r u,
    parsePdfWithGemini env file = Fulfilled r /\
    tokenUsage r = Some u /\
    (usageMetadata response = None ->
     u = {| promptTokens := zero; responseTokens := zero;
            totalTokens := zero |}) /\
    (opt_chain (usageMetadata response) promptTokenCount = None ->
     promptTokens u = zero) /\
    (opt_chain (usageMetadata response) candidatesTokenCount = None ->
     responseTokens u = zero) /\
    (opt_chain (usageMetadata response) totalTokenCount = None ->
     totalTokens u = zero).
Proof.
  intros H1 H2 H3 H4.
  exists (with_tokenUsage jsonResult (tokenUsage_of (usageMetadata response))).
  exists (tokenUsage_of (usageMetadata response)).
  split; [now apply (parsePdfWithGemini_completes _ _ pdfPart _ response_text)|].
  split; [reflexivity|].
  unfold tokenUsage_of.
  split; [intros ->; reflexivity|].
  repeat split; intros ->; reflexivity.
Qed.

Lemma absent_usage_counters_are_zero_sample :
  fileToGenerativePart Sample.env_no_usage Sample.pdf_file
    = Fulfilled Sample.part /\
  generateContent Sample.env_no_usage Sample.part
    = Fulfilled Sample.response_no_usage /\
  truthy_text (text Sample.response_no_usage) = Some Sample.response_text /\
  JSON_parse Sample.env_no_usage Sample.response_text = inr Sample.parsed /\
  exists r u,
    parsePdfWithGemini Sample.env_no_usage Sample.pdf_file = Fulfilled r /\
    tokenUsage r = Some u /\
    (usageMetadata Sample.response_no_usage = None ->
     u = {| promptTokens := zero; responseTokens := zero;
            totalTokens := zero |}) /\
    (opt_chain (usageMetadata Sample.response_no_usage) promptTokenCount = None ->
     promptTokens u = zero) /\
    (opt_chain (usageMetadata Sample.response_no_usage) candidatesTokenCount = None ->
     responseTokens u = zero) /\
    (opt_chain (usageMetadata Sample.response_no_usage) totalTokenCount = None ->
     totalTokens u = zero).
Proof.
  repeat (split; [vm_compute; reflexivity|]).
  apply (absent_usage_counters_are_zero Sample.env_no_usage Sample.pdf_file
           Sample.part Sample.response_no_usage Sample.response_text
           Sample.parsed);
    vm_compute; reflexivity.
Defined.

(** ** The local text *)

Lemma join_is_concat (sep : string) (l : list string) :
  join sep l = String.concat sep l.
Proof.
  induction l as [|x l IH]; [reflexivity|].
  destruct l as [|y l]; [reflexivity|].
  change (x ++ sep ++ join sep (y :: l) = x ++ sep ++ String.concat sep (y :: l)).
  now rewrite IH.
Qed.

Lemma page_block_is_spec (i : nat) (page_text : string) :
  page_block i page_text = spec_page_block i page_text.
Proof.
  unfold page_block, spec_page_block, spec_page_marker, blank_line, str1.
  rewrite !append_assoc. reflexivity.
Qed.

(** C5.  When the file can be read, the document loaded and each of its
    pages 1 to [numPages] read, [parsePdfLocal] returns the concatenation, in
    page order, of one block per page: the marker [--- PAGE i ---], a blank
    line, the items of the page joined with single spaces, a blank line. *)
Theorem local_text_is_page_blocks (env : Env) (file : File.t)
    (buffer : list Byte.byte) (pdf : PDFDocumentProxy)
    (texts : nat -> TextContent) :
  arrayBuffer env file = Fulfilled buffer ->
  getDocument env buffer = Fulfilled pdf ->
  (forall i, 1 <= i <= numPages pdf ->
     exists page, getPage pdf i = Fulfilled page /\
                  getTextContent page = Fulfilled (texts i)) ->
  parsePdfLocal env file =
  Fulfilled (spec_local_text (numPages pdf)
               (fun i => spec_page_text (texts i))).
Proof.
  intros Hbuf Hdoc Hpages.
  unfold parsePdfLocal. apply try_catch_fulfilled.
  unfold parsePdfLocal_try. rewrite Hbuf; cbn [await]. rewrite Hdoc; cbn [await].
  rewrite (pages_loop_readable pdf texts)
    by (intros j Hj; apply Hpages; lia).
  cbn [append]. unfold spec_local_text. do 2 f_equal.
  apply map_ext; intros i.
  rewrite page_block_is_spec. unfold pageText_of, spec_page_text.
  now rewrite join_is_concat.
Qed.

Lemma local_text_is_page_blocks_sample :
  arrayBuffer Sample.env Sample.pdf_file = Fulfilled [] /\
  getDocument Sample.env [] = Fulfilled Sample.document /\
  (forall i, 1 <= i <= numPages Sample.document ->
     exists page, getPage Sample.document i = Fulfilled page /\
                  getTextContent page = Fulfilled (Sample.text_content i)) /\
  parsePdfLocal Sample.env Sample.pdf_file =
  Fulfilled (spec_local_text (numPages Sample.document)
               (fun i => spec_page_text (Sample.text_content i))).
Proof.
  assert (Hpages : forall i, 1 <= i <= numPages Sample.document ->
     exists page, getPage Sample.document i = Fulfilled page /\
                  getTextContent page = Fulfilled (Sample.text_content i)).
  { intros [|[|[|i]]] Hi; simpl in Hi; try lia;
      eexists; split; reflexivity. }
  split; [reflexivity|]. split; [reflexivity|]. split; [exact Hpages|].
  apply (local_text_is_page_blocks Sample.env Sample.pdf_file []
           Sample.document Sample.text_content);
    [reflexivity | reflexivity | exact Hpages].
Defined.

(** ** The upload widget *)

Lemma select_first_calls (files : option (list File.t)) (f : File.t) :
  In (onFileSelected f) (select_first files) ->
  File.type f = "application/pdf".
Proof.
  destruct files as [[|file rest]|]; simpl; try tauto.
  destruct (String.eqb_spec (File.type file) "application/pdf") as [Heq|Hne];
    simpl; intros [H|[]]; [|discriminate].
  now injection H as <-.
Qed.

Lemma select_first_non_pdf (f : File.t) (rest : list File.t) :
  File.type f <> "application/pdf" ->
  select_first (Some (f :: rest)) = [alert "Please upload a PDF file."].
Proof.
  intros Hne. simpl.
  destruct (String.eqb_spec (File.type f) "application/pdf"); [contradiction|].
  reflexivity.
Qed.

(** C4.  A file whose declared type is not "application/pdf" is never passed
    to [onFileSelected], by the drop handler or by the change handler,
    whatever the event; when it is the file dropped or chosen, the handler
    only raises the alert, and the state of [App] (hence both extraction
    branches, which only [handleFileSelected] starts) is left untouched. *)
Theorem non_pdf_is_rejected (f : File.t) :
  File.type f <> "application/pdf" ->
  (forall isLoading e, ~ In (onFileSelected f) (handleDrop isLoading e)) /\
  (forall isLoading e, ~ In (onFileSelected f) (handleFileChange isLoading e)) /\
  (forall rest,
     handleDrop false {| dataTransfer_files := Some (f :: rest) |} =
     [preventDefault; setIsDragging false; alert "Please upload a PDF file."]) /\
  (forall rest,
     handleFileChange false {| target_files := Some (f :: rest) |} =
     [alert "Please upload a PDF file."]) /\
  (forall env st rest,
     App_drop env {| dataTransfer_files := Some (f :: rest) |} st = st) /\
  (forall env st rest,
     App_fileChange env {| target_files := Some (f :: rest) |} st = st).
Proof.
  intros Hne.
  split; [|split; [|split; [|split; [|split]]]].
  - intros isLoading e Hin. apply Hne. unfold handleDrop in Hin.
    destruct Hin as [H|[H|Hin]]; try discriminate.
    destruct isLoading; [destruct Hin|].
    now apply (select_first_calls (dataTransfer_files e)).
  - intros isLoading e Hin. apply Hne. unfold handleFileChange in Hin.
    destruct isLoading; [destruct Hin|].
    now apply (select_first_calls (target_files e)).
  - intros rest. unfold handleDrop.
    cbn [dataTransfer_files]. now rewrite select_first_non_pdf.
  - intros rest. unfold handleFileChange.
    cbn [target_files]. now apply select_first_non_pdf.
  - intros env st rest. unfold App_drop, handleDrop.
    cbn [dataTransfer_files]. rewrite select_first_non_pdf by exact Hne.
    destruct (isLoading_of st); reflexivity.
  - intros env st rest. unfold App_fileChange, handleFileChange.
    cbn [target_files]. rewrite select_first_non_pdf by exact Hne.
    destruct (isLoading_of st); reflexivity.
Qed.

Lemma non_pdf_is_rejected_sample :
  File.type Sample.text_file <> "application/pdf" /\
  (forall isLoading e,
     ~ In (onFileSelected Sample.text_file) (handleDrop isLoading e)) /\
  (forall isLoading e,
     ~ In (onFileSelected Sample.text_file) (handleFileChange isLoading e)) /\
  (forall rest,
     handleDrop false {| dataTransfer_files := Some (Sample.text_file :: rest) |} =
     [preventDefault; setIsDragging false; alert "Please upload a PDF file."]) /\
  (forall rest,
     handleFileChange false {| target_files := Some (Sample.text_file :: rest) |} =
     [alert "Please upload a PDF file."]) /\
  (forall env st rest,
     App_drop env {| dataTransfer_files := Some (Sample.text_file :: rest) |} st
     = st) /\
  (forall env st rest,
     App_fileChange env {| target_files := Some (Sample.text_file :: rest) |} st
     = st).
Proof.
  split; [simpl; discriminate|].
  apply (non_pdf_is_rejected Sample.text_file). simpl; discriminate.
Defined.

(** ** The CSV export *)

Lemma replace_all_app (c : ascii) (r a b : string) :
  replace_all c r (a ++ b) = replace_all c r a ++ replace_all c r b.
Proof.
  induction a as [|x a IH]; simpl; [reflexivity|].
  destruct (Ascii.eqb x c); rewrite IH; [|reflexivity].
  now rewrite append_assoc.
Qed.

(** Reading back the escaped text up to its closing quote gives the text. *)
Lemma read_quoted_body_escaped (d rest : string) :
  begins_with_dquote rest = false ->
  read_quoted_body
    (replace_all dquote (String dquote (str1 dquote)) d ++ str1 dquote ++ rest)
  = Some (d, rest).
Proof.
  intros Hrest. induction d as [|a d IH].
  - cbn [replace_all append str1 read_quoted_body].
    rewrite Ascii.eqb_refl.
    destruct rest as [|b rest']; [reflexivity|].
    cbn [begins_with_dquote] in Hrest. now rewrite Hrest.
  - cbn [replace_all].
    destruct (Ascii.eqb_spec a dquote) as [->|Hne].
    + cbn [append str1 read_quoted_body]. rewrite Ascii.eqb_refl.
      cbn [append str1] in IH. now rewrite IH.
    + cbn [append read_quoted_body].
      destruct (Ascii.eqb_spec a dquote) as [->|_]; [contradiction|].
      now rewrite IH.
Qed.

Lemma read_quoted_field_description (t : Transaction) (rest : string) :
  begins_with_dquote rest = false ->
  read_quoted_field (quoted_description t ++ rest) = Some (description t, rest).
Proof.
  intros Hrest. unfold quoted_description, read_quoted_field.
  cbn [str1 append]. rewrite Ascii.eqb_refl.
  rewrite append_assoc. now apply read_quoted_body_escaped.
Qed.


(** C6.  The CSV export is the header row
    [Post Date,Trans Date,Description,Amount,Currency] followed by one row
    per transaction, in order, the rows joined by newlines and the cells of a
    row by commas.  The description cell is the description between double
    quotes with every double quote in it doubled, and reading that cell back
    (a doubled quote for a quote, up to the closing quote) gives the
    description again, alone and in place in its row. *)
Theorem csv_export_round_trips (env : Env) :
  (forall data,
     handleDownload env data Tab_transactions =
     {| dl_content := csv_content env (transactions data);
        dl_mimeType := "text/csv"; dl_extension := "csv" |}) /\
  (forall txs,
     csv_content env (Some txs) =
     join (str1 newline)
       ("Post Date,Trans Date,Description,Amount,Currency" ::
        map (fun t => post_date t ++ "," ++ trans_date t ++ ","
                      ++ quoted_description t ++ ","
                      ++ Number_toString env (amount t) ++ "," ++ currency t)
            txs)) /\
  csv_content env None = "Post Date,Trans Date,Description,Amount,Currency" /\
  (forall t before after,
     description t = before ++ str1 dquote ++ after ->
     quoted_description t =
     str1 dquote
     ++ replace_all dquote (String dquote (str1 dquote)) before
     ++ String dquote (str1 dquote)
     ++ replace_all dquote (String dquote (str1 dquote)) after
     ++ str1 dquote) /\
  (forall t,
     read_quoted_field (quoted_description t) = Some (description t, "")) /\
  (forall t,
     read_quoted_field
       (quoted_description t ++ "," ++ Number_toString env (amount t)
        ++ "," ++ currency t) =
     Some (description t,
           "," ++ Number_toString env (amount t) ++ "," ++ currency t)).
Proof.
  split; [reflexivity|].
  split.
  { intros txs. unfold csv_content. cbn [option_map].
    rewrite map_map. do 2 f_equal. }
  split; [reflexivity|].
  split.
  { intros t before after Hd. unfold quoted_description. rewrite Hd.
    rewrite !replace_all_app. cbn [replace_all str1].
    rewrite Ascii.eqb_refl. cbn [append].
    rewrite !append_assoc. reflexivity. }
  split.
  { intros t. rewrite <- (append_nil_r (quoted_description t)).
    now apply read_quoted_field_description. }
  intros t. now apply read_quoted_field_description.
Qed.

Lemma csv_export_round_trips_sample :
  description Sample.quoted_purchase =
    "CAFE " ++ str1 dquote ++ ("LUNA" ++ str1 dquote ++ ", KANDY") /\
  quoted_description Sample.quoted_purchase =
    str1 dquote
    ++ replace_all dquote (String dquote (str1 dquote)) "CAFE "
    ++ String dquote (str1 dquote)
    ++ replace_all dquote (String dquote (str1 dquote))
         ("LUNA" ++ str1 dquote ++ ", KANDY")
    ++ str1 dquote /\
  csv_content Sample.env (Some [Sample.quoted_purchase; Sample.refund]) =
    "Post Date,Trans Date,Description,Amount,Currency" ++ str1 newline
    ++ "2026-01-07,2026-01-06,"
    ++ str1 dquote ++ "CAFE " ++ str1 dquote ++ str1 dquote ++ "LUNA"
    ++ str1 dquote ++ str1 dquote ++ ", KANDY" ++ str1 dquote
    ++ ",1500,LKR" ++ str1 newline
    ++ "2026-01-05,2026-01-05," ++ str1 dquote ++ "PAYMENT RECEIVED"
    ++ str1 dquote ++ ",-200,LKR" /\
  read_quoted_field (quoted_description Sample.quoted_purchase ++ ",1500,LKR")
    = Some (description Sample.quoted_purchase, ",1500,LKR").
Proof.
  destruct (csv_export_round_trips Sample.env)
    as (_ & Hshape & _ & Hdoubled & _ & Hrow).
  split; [reflexivity|].
  split; [apply Hdoubled; reflexivity|].
  split; [rewrite Hshape; vm_compute; reflexivity|].
  exact (Hrow Sample.quoted_purchase).
Defined.

(** ** The transaction table *)

Lemma length_append (s t : string) :
  String.length (s ++ t) = String.length s + String.length t.
Proof. induction s as [|a s IH]; simpl; [reflexivity | now rewrite IH]. Qed.

Lemma length_zeros (n : nat) : String.length (zeros n) = n.
Proof. induction n as [|n IH]; simpl; [reflexivity | now rewrite IH]. Qed.

Lemma length_substring (s : string) :
  forall n m, n + m <= String.length s ->
              String.length (substring n m s) = m.
Proof.
  induction s as [|a s IH]; intros [|n] [|m] Hle; simpl in *;
    try reflexivity; try lia.
  - rewrite (IH 0 m) by lia. reflexivity.
  - apply (IH n 0). lia.
  - apply (IH n (S m)). lia.
Qed.

(** With two fraction digits, the digits come out as a non-empty whole part,
    a point and exactly two more characters. *)
Lemma place_point_two_decimals (n : Z) :
  exists whole frac,
    place_point 2 n = whole ++ "." ++ frac /\
    String.length frac = 2 /\ whole <> "".
Proof.
  unfold place_point.
  set (m := if (n =? 0)%Z then "0" else digits_of_Z n).
  set (k := String.length m).
  destruct (Nat.leb_spec k 2) as [Hk|Hk].
  - exists (substring 0 (2 + 1 - 2) (zeros (2 + 1 - k) ++ m)),
           (substring (2 + 1 - 2) 2 (zeros (2 + 1 - k) ++ m)).
    assert (Hlen : String.length (zeros (2 + 1 - k) ++ m) = 3).
    { rewrite length_append, length_zeros. fold k. lia. }
    split; [reflexivity|]. split.
    + apply length_substring. rewrite Hlen. simpl. lia.
    + intros Hempty.
      assert (H1 : String.length (substring 0 (2 + 1 - 2)
                                    (zeros (2 + 1 - k) ++ m)) = 1)
        by (apply length_substring; rewrite Hlen; simpl; lia).
      rewrite Hempty in H1. discriminate.
  - exists (substring 0 (k - 2) m), (substring (k - 2) 2 m).
    split; [reflexivity|]. split.
    + apply length_substring. fold k. lia.
    + intros Hempty.
      assert (H1 : String.length (substring 0 (k - 2) m) = k - 2)
        by (apply length_substring; fold k; lia).
      rewrite Hempty in H1. simpl in H1. lia.
Qed.

Lemma fixed_notation_abs (x : number) :
  fixed_notation (Math_abs x) = fixed_notation x.
Proof. destruct x; reflexivity. Qed.

Lemma abs_opp (x : number) : Math_abs (SFopp x) = Math_abs x.
Proof. destruct x; reflexivity. Qed.

(** C8.  For the list of a transaction of amount 1500.00 LKR followed by one
    of amount -200.00 LKR, the table shows the first amount without a plus
    sign, as 1500.00, and the second with a plus sign, as 200.00.  The
    magnitude shown is that of the absolute value: it is the same for an
    amount and for its opposite, and for every amount printed in fixed
    notation it has exactly two characters after the point. *)
Theorem two_transactions_render_debit_then_credit (env : Env)
    (post1 trans1 text1 post2 trans2 text2 : string) (mode : JsonViewMode) :
  let tx1 := {| post_date := post1; trans_date := trans1; description := text1;
                amount := of_Z 1500; currency := "LKR" |} in
  let tx2 := {| post_date := post2; trans_date := trans2; description := text2;
                amount := of_Z (-200); currency := "LKR" |} in
  (forall data,
     transactions data = Some [tx1; tx2] ->
     contentArea env data Tab_transactions mode =
     Pane_table [tableRow env tx1; tableRow env tx2]) /\
  sign (amount_shown (tableRow env tx1)) = "" /\
  magnitude (amount_shown (tableRow env tx1)) = "1500.00" /\
  cell_text (amount_shown (tableRow env tx1)) = " 1500.00 LKR" /\
  sign (amount_shown (tableRow env tx2)) = "+" /\
  magnitude (amount_shown (tableRow env tx2)) = "200.00" /\
  cell_text (amount_shown (tableRow env tx2)) = "+ 200.00 LKR" /\
  (forall tx,
     magnitude (amountCell env tx) =
     toFixed (Number_toString env) 2 (Math_abs (amount tx))) /\
  (forall tx,
     magnitude (amountCell env (opposite tx)) = magnitude (amountCell env tx)) /\
  (forall tx,
     fixed_notation (amount tx) = true ->
     exists whole frac,
       magnitude (amountCell env tx) = whole ++ "." ++ frac /\
       String.length frac = 2 /\ whole <> "").
Proof.
  intros tx1 tx2.
  split; [intros data Htx; unfold contentArea; rewrite Htx; reflexivity|].
  do 6 (split; [vm_compute; reflexivity|]).
  split; [reflexivity|].
  split.
  { intros tx. unfold amountCell, opposite. cbn [magnitude amount].
    now rewrite abs_opp. }
  intros tx Hfixed. unfold amountCell. cbn [magnitude].
  rewrite <- fixed_notation_abs in Hfixed.
  destruct (amount tx) as [s|s| |s m e]; try discriminate.
  - apply place_point_two_decimals.
  - cbn [Math_abs SFabs toFixed fixed_notation] in *.
    apply negb_true_iff in Hfixed. rewrite Hfixed.
    apply place_point_two_decimals.
Qed.

Lemma two_transactions_render_debit_then_credit_sample :
  transactions Sample.parsed = Some [Sample.purchase; Sample.refund] /\
  contentArea Sample.env Sample.parsed Tab_transactions Mode_tree =
    Pane_table [tableRow Sample.env Sample.purchase;
                tableRow Sample.env Sample.refund] /\
  map (fun tx => cell_text (amount_shown (tableRow Sample.env tx)))
      [Sample.purchase; Sample.refund] = [" 1500.00 LKR"; "+ 200.00 LKR"] /\
  fixed_notation (amount Sample.purchase) = true /\
  exists whole frac,
    magnitude (amountCell Sample.env Sample.purchase) = whole ++ "." ++ frac /\
    String.length frac = 2 /\ whole <> "".
Proof.
  destruct (two_transactions_render_debit_then_credit Sample.env
              "2026-01-03" "2026-01-02" "KEELLS SUPER COLOMBO"
              "2026-01-05" "2026-01-05" "PAYMENT RECEIVED" Mode_tree)
    as (Htable & _ & _ & Hdebit & _ & _ & Hcredit & _ & _ & Hshape).
  split; [reflexivity|].
  split; [apply Htable; reflexivity|].
  split; [cbn [map]; now rewrite <- Hdebit, <- Hcredit|].
  split; [vm_compute; reflexivity|].
  apply Hshape. vm_compute; reflexivity.
Defined.

(** C9.  A transaction whose amount is zero (of either sign) is shown with
    the plus sign and the magnitude 0.00, in the colour of the debits: the
    test for the plus sign is [amount > 0], the test for the credit colour
    is [amount < 0], and zero passes neither. *)
Theorem zero_amount_is_an_uncoloured_credit (env : Env) (tx : Transaction)
    (s : bool) :
  amount tx = S754_zero s ->
  gt (amount tx) zero = false /\
  lt (amount tx) zero = false /\
  amountCell env tx =
    {| className :=
         "px-4 py-3 text-right font-mono font-medium whitespace-nowrap text-slate-200";
       sign := "+";
       magnitude := "0.00";
       unit := currency tx |} /\
  cell_text (amountCell env tx) = "+ 0.00 " ++ currency tx.
Proof.
  intros Hzero. unfold amountCell, cell_text. cbn [sign magnitude unit].
  rewrite Hzero. repeat split.
Qed.

Lemma zero_amount_is_an_uncoloured_credit_sample :
  amount Sample.nil_amount = S754_zero true /\
  gt (amount Sample.nil_amount) zero = false /\
  lt (amount Sample.nil_amount) zero = false /\
  amountCell Sample.env Sample.nil_amount =
    {| className :=
         "px-4 py-3 text-right font-mono font-medium whitespace-nowrap text-slate-200";
       sign := "+";
       magnitude := "0.00";
       unit := currency Sample.nil_amount |} /\
  cell_text (amountCell Sample.env Sample.nil_amount)
    = "+ 0.00 " ++ currency Sample.nil_amount.
Proof.
  split; [reflexivity|].
  apply (zero_amount_is_an_uncoloured_credit Sample.env Sample.nil_amount true).
  reflexivity.
Defined.

(** ** The tab bar *)

Lemma offered_transactions (data : PdfParseResult) :
  offered data Tab_transactions = truthy_flag (hasTransactions data).
Proof.
  unfold offered, tabButtons.
  destruct (truthy_flag (hasTransactions data)); reflexivity.
Qed.

Lemma truthy_hasTransactions (data : PdfParseResult) :
  truthy_flag (hasTransactions data) = true <->
  exists txs, transactions data = Some txs /\ txs <> [].
Proof.
  unfold hasTransactions. split.
  - destruct (transactions data) as [[|tx txs]|]; simpl; try discriminate.
    intros _. exists (tx :: txs). split; [reflexivity | discriminate].
  - intros (txs & -> & Hne). destruct txs; [contradiction | reflexivity].
Qed.

(** Without its button, the transactions tab is never the active one. *)
Lemma activeTab_never_transactions (data : PdfParseResult) :
  offered data Tab_transactions = false ->
  forall clicks activeTab,
    activeTab <> Tab_transactions ->
    fold_left (clickTab data) clicks activeTab <> Tab_transactions.
Proof.
  intros Hoff. induction clicks as [|t clicks IH]; intros activeTab Hne.
  - exact Hne.
  - cbn [fold_left]. apply IH. unfold clickTab.
    destruct (offered data t) eqn:Ht; [|exact Hne].
    intros ->. rewrite Hoff in Ht. discriminate.
Qed.

(** C10.  The tab bar has a Transactions button exactly when the transaction
    list exists and is not empty, and that button carries the length of the
    list as its badge.  When the list is absent or empty, [hasTransactions]
    is falsy, and whatever the user clicks the active tab is never the
    transactions tab: the table is not shown and the download is not the
    CSV. *)
Theorem transactions_tab_only_when_nonempty (data : PdfParseResult) :
  (In Tab_transactions (map activates (tabButtons data)) <->
   exists txs, transactions data = Some txs /\ txs <> []) /\
  (forall b,
     In b (tabButtons data) -> activates b = Tab_transactions ->
     exists txs, transactions data = Some txs /\
                 badge b = Some (List.length txs)) /\
  (transactions data = None \/ transactions data = Some [] ->
   truthy_flag (hasTransactions data) = false /\
   forall clicks,
     activeTab_after data clicks <> Tab_transactions /\
     (forall env mode rows,
        contentArea env data (activeTab_after data clicks) mode
        <> Pane_table rows) /\
     (forall env,
        dl_mimeType (handleDownload env data (activeTab_after data clicks))
        <> "text/csv")).
Proof.
  split; [|split].
  - rewrite <- truthy_hasTransactions. unfold tabButtons.
    destruct (truthy_flag (hasTransactions data)); simpl; split;
      try tauto; try discriminate.
    intros [H|[H|[]]]; discriminate.
  - intros b Hin Hact. unfold tabButtons in Hin.
    destruct (truthy_flag (hasTransactions data)) eqn:Hflag; simpl in Hin.
    + destruct Hin as [<-|[<-|[<-|[]]]]; try discriminate.
      apply truthy_hasTransactions in Hflag as (txs & Htx & _).
      exists txs. split; [exact Htx|]. cbn [badge]. now rewrite Htx.
    + destruct Hin as [<-|[<-|[]]]; discriminate.
  - intros Habsent.
    assert (Hflag : truthy_flag (hasTransactions data) = false).
    { unfold hasTransactions. destruct Habsent as [-> | ->]; reflexivity. }
    split; [exact Hflag|].
    intros clicks.
    assert (Hnever : activeTab_after data clicks <> Tab_transactions).
    { apply activeTab_never_transactions; [|discriminate].
      now rewrite offered_transactions. }
    split; [exact Hnever|]. split.
    + intros env mode rows.
      destruct (activeTab_after data clicks); simpl;
        [destruct mode; discriminate | discriminate | contradiction].
    + intros env.
      destruct (activeTab_after data clicks); simpl;
        [discriminate | discriminate | contradiction].
Qed.

Lemma transactions_tab_only_when_nonempty_sample :
  (transactions
     {| metadata := metadata Sample.parsed; pages := [];
        transactions := Some []; standardRawText := None;
        tokenUsage := None |} = Some []) /\
  (forall clicks,
     activeTab_after
       {| metadata := metadata Sample.parsed; pages := [];
          transactions := Some []; standardRawText := None;
          tokenUsage := None |} clicks <> Tab_transactions) /\
  In Tab_transactions (map activates (tabButtons Sample.parsed)) /\
  activeTab_after Sample.parsed [Tab_transactions] = Tab_transactions.
Proof.
  split; [reflexivity|].
  split.
  - intros clicks.
    destruct (transactions_tab_only_when_nonempty
                {| metadata := metadata Sample.parsed; pages := [];
                   transactions := Some []; standardRawText := None;
                   tokenUsage := None |}) as (_ & _ & Hnone).
    destruct (Hnone (or_intror eq_refl)) as (_ & Hclicks).
    exact (proj1 (Hclicks clicks)).
  - split.
    + apply (proj1 (transactions_tab_only_when_nonempty Sample.parsed)).
      exists [Sample.purchase; Sample.refund].
      split; [reflexivity | discriminate].
    + reflexivity.
Defined.

(* ================================================================== *)
(** * Further properties of the code                                   *)
(* ================================================================== *)

(** ** The dispatch, case by case *)

Lemma string_or_nonempty (o : option string) (d : string) :
  d <> "" -> string_or o d <> "".
Proof.
  intros Hd. destruct o as [[|a s]|]; simpl; try exact Hd. discriminate.
Qed.

(** The three ways [handleFileSelected] ends, with the state in each. *)
Lemma handleFileSelected_cases (env : Env) (f : File.t) (st : AppState) :
  (exists aiResult rawText,
     parsePdfWithGemini env f = Fulfilled aiResult /\
     parsePdfLocal env f = Fulfilled rawText /\
     handleFileSelected env f st =
     {| status := SUCCESS;
        result := Some (with_standardRawText aiResult rawText);
        errorMsg := None; file := Some f |}) \/
  (exists err,
     parsePdfWithGemini env f = Rejected err /\
     handleFileSelected env f st =
     {| status := ERROR; result := None;
        errorMsg := Some (string_or (message err)
                            "An unknown error occurred while parsing the PDF.");
        file := Some f |}) \/
  ((parsePdfWithGemini env f = Pending \/
    exists aiResult, parsePdfWithGemini env f = Fulfilled aiResult /\
                     parsePdfLocal env f = Pending) /\
   handleFileSelected env f st =
   {| status := PROCESSING; result := None; errorMsg := None;
      file := Some f |}).
Proof.
  destruct (parsePdfWithGemini env f) as [ai|err|] eqn:Hai.
  - destruct (parsePdfLocal env f) as [t|e|] eqn:Hraw.
    + left. exists ai, t. repeat split.
      now apply handleFileSelected_success.
    + exfalso. exact (parsePdfLocal_never_rejects _ _ _ Hraw).
    + right; right. split; [right; exists ai; now split|].
      unfold handleFileSelected. rewrite Hai, Hraw. reflexivity.
  - right; left. exists err. split; [reflexivity|].
    now apply handleFileSelected_error.
  - right; right. split; [now left|].
    unfold handleFileSelected. rewrite Hai.
    destruct (parsePdfLocal env f) as [t|e|] eqn:Hraw; try reflexivity.
    exfalso. exact (parsePdfLocal_never_rejects _ _ _ Hraw).
Qed.

(** The four cells are all overwritten: nothing of the previous state is
    left. *)
Lemma handleFileSelected_forgets (env : Env) (f : File.t) (st st' : AppState) :
  handleFileSelected env f st' = handleFileSelected env f st.
Proof.
  unfold handleFileSelected.
  destruct (Promise_all2 _ _ _) as [[ai t]|err|]; reflexivity.
Qed.

(** X1.  [handleFileSelected] ends in [SUCCESS] exactly when both branches
    are fulfilled, in [ERROR] exactly when the remote branch rejects
    (whatever the local branch does, even if it never settles), and stays in
    [PROCESSING] exactly when the remote branch never settles or the local
    one does not while the remote one is fulfilled.  It never ends in [IDLE],
    and where it ends does not depend on the state it started from. *)
Theorem handleFileSelected_outcome (env : Env) (f : File.t) (st : AppState) :
  (status (handleFileSelected env f st) = SUCCESS <->
   exists aiResult rawText,
     parsePdfWithGemini env f = Fulfilled aiResult /\
     parsePdfLocal env f = Fulfilled rawText) /\
  (status (handleFileSelected env f st) = ERROR <->
   exists err, parsePdfWithGemini env f = Rejected err) /\
  (status (handleFileSelected env f st) = PROCESSING <->
   parsePdfWithGemini env f = Pending \/
   exists aiResult, parsePdfWithGemini env f = Fulfilled aiResult /\
                    parsePdfLocal env f = Pending) /\
  status (handleFileSelected env f st) <> IDLE /\
  (forall st', handleFileSelected env f st' = handleFileSelected env f st).
Proof.
  assert (Hindep : forall st', handleFileSelected env f st'
                               = handleFileSelected env f st)
    by (intros st'; apply handleFileSelected_forgets).
  destruct (handleFileSelected_cases env f st)
    as [(ai & t & Hai & Hraw & Heq) | [(err & Hai & Heq) | (Hpend & Heq)]];
    rewrite Heq in Hindep |- *; cbn [status].
  - split; [split; [intros _; now exists ai, t | reflexivity]|].
    split; [split; [discriminate | intros (e & He); congruence]|].
    split; [split; [discriminate
                   | intros [Hp | (a & Hp & Hq)]; congruence]|].
    split; [discriminate | exact Hindep].
  - split; [split; [discriminate | intros (a & r & Ha & Hr); congruence]|].
    split; [split; [intros _; now exists err | reflexivity]|].
    split; [split; [discriminate
                   | intros [Hp | (a & Hp & Hq)]; congruence]|].
    split; [discriminate | exact Hindep].
  - split; [split; [discriminate|]|].
    { intros (a & r & Ha & Hr).
      destruct Hpend as [Hp | (a' & Hp & Hq)]; congruence. }
    split; [split; [discriminate|]|].
    { intros (e & He).
      destruct Hpend as [Hp | (a' & Hp & Hq)]; congruence. }
    split; [split; [intros _; exact Hpend | reflexivity]|].
    split; [discriminate | exact Hindep].
Qed.

Lemma handleFileSelected_outcome_sample :
  (exists aiResult rawText,
     parsePdfWithGemini Sample.env Sample.pdf_file = Fulfilled aiResult /\
     parsePdfLocal Sample.env Sample.pdf_file = Fulfilled rawText) /\
  status (handleFileSelected Sample.env Sample.pdf_file initialState)
    = SUCCESS /\
  parsePdfWithGemini Events.env_silent Sample.pdf_file = Pending /\
  status (handleFileSelected Events.env_silent Sample.pdf_file initialState)
    = PROCESSING.
Proof.
  assert (Hboth : exists aiResult rawText,
     parsePdfWithGemini Sample.env Sample.pdf_file = Fulfilled aiResult /\
     parsePdfLocal Sample.env Sample.pdf_file = Fulfilled rawText).
  { exists Sample.ai_result, Sample.raw_text.
    split; vm_compute; reflexivity. }
  assert (Hsilent : parsePdfWithGemini Events.env_silent Sample.pdf_file
                    = Pending) by (vm_compute; reflexivity).
  split; [exact Hboth|]. split.
  - apply (proj1 (handleFileSelected_outcome Sample.env Sample.pdf_file
                    initialState)). exact Hboth.
  - split; [exact Hsilent|].
    apply (proj1 (proj2 (proj2 (handleFileSelected_outcome Events.env_silent
                                  Sample.pdf_file initialState)))).
    left. exact Hsilent.
Defined.

(** ** The states of [App] *)

Lemma parsePdfWithGemini_has_usage (env : Env) (f : File.t)
    (r : PdfParseResult) :
  parsePdfWithGemini env f = Fulfilled r -> tokenUsage r <> None.
Proof.
  rewrite parsePdfWithGemini_rethrows. unfold parsePdfWithGemini_try.
  destruct (fileToGenerativePart env f) as [part|e|]; cbn [await];
    try discriminate.
  destruct (generateContent env part) as [resp|e|]; cbn [await];
    try discriminate.
  destruct (truthy_text (text resp)) as [txt|]; [|discriminate].
  destruct (JSON_parse env txt) as [e|json]; cbn; [discriminate|].
  intros [= <-]. discriminate.
Qed.

Lemma coherent_initial : coherent initialState.
Proof. split; [discriminate | repeat split]. Qed.

Lemma coherent_handleFileSelected (env : Env) (f : File.t) (st : AppState) :
  File.type f = "application/pdf" -> coherent (handleFileSelected env f st).
Proof.
  intros Hpdf.
  destruct (handleFileSelected_cases env f st)
    as [(ai & t & Hai & Hraw & ->) | [(err & Hai & ->) | (Hpend & ->)]];
    (split; [intros f' [= <-]; exact Hpdf|]); cbn [status result errorMsg file].
  - split; [|split; [reflexivity | discriminate]].
    exists (with_standardRawText ai t). split; [reflexivity|].
    split; [discriminate|].
    exact (parsePdfWithGemini_has_usage _ _ _ Hai).
  - split; [reflexivity|]. split; [|discriminate].
    eexists; split; [reflexivity|]. apply string_or_nonempty. discriminate.
  - repeat split. discriminate.
Qed.

Lemma coherent_select_first (env : Env) (files : option (list File.t))
    (st : AppState) :
  coherent st -> coherent (fold_left (perform env) (select_first files) st).
Proof.
  intros Hst. destruct files as [[|f rest]|]; simpl; try exact Hst.
  destruct (String.eqb_spec (File.type f) "application/pdf") as [Hpdf|_];
    simpl; [now apply coherent_handleFileSelected | exact Hst].
Qed.

Lemma coherent_step (env : Env) (st : AppState) (ev : AppEvent) :
  coherent st -> coherent (App_step env st ev).
Proof.
  intros Hst. destruct ev as [e|e|]; unfold App_step.
  - destruct (showsUpload st); [|exact Hst].
    unfold App_drop, handleDrop. cbn [app fold_left perform].
    destruct (isLoading_of st); [exact Hst | now apply coherent_select_first].
  - destruct (showsUpload st); [|exact Hst].
    unfold App_fileChange, handleFileChange.
    destruct (isLoading_of st); [exact Hst | now apply coherent_select_first].
  - destruct (showsReset st); [apply coherent_initial | exact Hst].
Qed.

Lemma coherent_fold (env : Env) (events : list AppEvent) :
  forall st, coherent st -> coherent (fold_left (App_step env) events st).
Proof.
  induction events as [|ev events IH]; intros st Hst; [exact Hst|].
  cbn [fold_left]. apply IH. now apply coherent_step.
Qed.

(** X2.  Whatever the user does and whatever the collaborators answer, the
    four state cells of [App] stay in agreement: a stored result, carrying
    the local text and the token usage, exactly in [SUCCESS]; a non-empty
    error message exactly in [ERROR]; neither in [IDLE] and [PROCESSING];
    and a selected file, whose type is "application/pdf", in every state but
    [IDLE]. *)
Theorem App_states_are_coherent (env : Env) (events : list AppEvent) :
  coherent (App_run env events).
Proof. apply coherent_fold, coherent_initial. Qed.

(** X3.  In every state [App] reaches, exactly one of the upload screen and
    the split screen with the viewer is rendered, the viewer exactly in
    [SUCCESS]; the usage widget and the [New File] button are rendered with
    the viewer. *)
Theorem App_renders_one_screen (env : Env) (events : list AppEvent) :
  let st := App_run env events in
  showsUpload st = negb (showsViewer st) /\
  (showsViewer st = true <-> status st = SUCCESS) /\
  showsUsage st = showsViewer st /\
  showsReset st = showsViewer st.
Proof.
  cbv zeta.
  destruct (coherent_fold env events _ coherent_initial) as (_ & Hst).
  fold (App_run env events) in Hst.
  destruct (App_run env events) as [s r e f].
  unfold showsUpload, showsViewer, showsUsage, showsReset, has_fileUrl.
  cbn [status result errorMsg file opt_chain] in *.
  destruct s.
  - destruct Hst as (-> & _ & ->).
    repeat split; first [reflexivity | discriminate].
  - destruct Hst as (-> & _ & _).
    repeat split; first [reflexivity | discriminate].
  - destruct Hst as ((r' & -> & _ & Husage) & _ & Hfile).
    destruct f; [|contradiction].
    cbn [opt_chain]. destruct (tokenUsage r'); [|contradiction].
    repeat split.
  - destruct Hst as (-> & _ & _).
    repeat split; first [reflexivity | discriminate].
Qed.

(** X4.  There is no way out of an upload that never settles: from a state
    in [PROCESSING], no sequence of drops, file choices and presses of
    [New File] changes anything. *)
Theorem PROCESSING_is_stuck (env : Env) (st : AppState)
    (events : list AppEvent) :
  status st = PROCESSING ->
  fold_left (App_step env) events st = st.
Proof.
  intros Hst. induction events as [|ev events IH]; [reflexivity|].
  cbn [fold_left].
  assert (Hstep : App_step env st ev = st).
  { destruct ev as [e|e|]; unfold App_step, showsUpload, showsReset,
      App_drop, App_fileChange, handleDrop, handleFileChange, isLoading_of;
      rewrite Hst; reflexivity. }
  rewrite Hstep. exact IH.
Qed.

Lemma PROCESSING_is_stuck_sample :
  status (App_run Events.env_silent [Events.drop_pdf]) = PROCESSING /\
  fold_left (App_step Events.env_silent)
    [Events.choose_pdf; Ev_reset; Events.drop_pdf]
    (App_run Events.env_silent [Events.drop_pdf])
  = App_run Events.env_silent [Events.drop_pdf].
Proof.
  split; [vm_compute; reflexivity|].
  apply (PROCESSING_is_stuck Events.env_silent). vm_compute; reflexivity.
Defined.

(** ** The upload widget, event by event *)

Lemma select_first_call_iff (files : option (list File.t)) (f : File.t) :
  In (onFileSelected f) (select_first files) <->
  exists rest, files = Some (f :: rest) /\ File.type f = "application/pdf".
Proof.
  split.
  - intros Hin. pose proof (select_first_calls _ _ Hin) as Hpdf.
    destruct files as [[|g rest]|]; simpl in Hin; try contradiction.
    destruct (String.eqb (File.type g) "application/pdf");
      destruct Hin as [H|[]]; [|discriminate].
    injection H as ->. now exists rest.
  - intros (rest & -> & Hpdf). simpl.
    rewrite (proj2 (String.eqb_eq _ _) Hpdf). now left.
Qed.

Lemma select_first_one_reaction (files : option (list File.t)) :
  List.length (filter is_call (select_first files))
  + List.length (filter is_alert (select_first files)) <= 1.
Proof.
  destruct files as [[|g rest]|]; simpl; try lia.
  destruct (String.eqb (File.type g) "application/pdf"); simpl; lia.
Qed.

(** X5.  A drop or a file choice passes a file to [onFileSelected] exactly
    when the widget is not loading and that file is the first of the list
    and has type "application/pdf"; the files after the first are never
    looked at.  One event gives at most one reaction, a call or an alert,
    never both. *)
Theorem upload_takes_first_pdf_only (isLoading : bool) (d : DragEvent)
    (c : ChangeEvent) (f : File.t) :
  (In (onFileSelected f) (handleDrop isLoading d) <->
   isLoading = false /\
   exists rest, dataTransfer_files d = Some (f :: rest) /\
                File.type f = "application/pdf") /\
  (In (onFileSelected f) (handleFileChange isLoading c) <->
   isLoading = false /\
   exists rest, target_files c = Some (f :: rest) /\
                File.type f = "application/pdf") /\
  List.length (filter is_call (handleDrop isLoading d))
  + List.length (filter is_alert (handleDrop isLoading d)) <= 1 /\
  List.length (filter is_call (handleFileChange isLoading c))
  + List.length (filter is_alert (handleFileChange isLoading c)) <= 1.
Proof.
  unfold handleDrop, handleFileChange.
  split; [|split; [|split]].
  - cbn [app In]. split.
    + intros [H|[H|Hin]]; try discriminate.
      destruct isLoading; [destruct Hin|].
      split; [reflexivity|]. now apply select_first_call_iff.
    + intros (-> & Hfirst). right; right. now apply select_first_call_iff.
  - split.
    + intros Hin. destruct isLoading; [destruct Hin|].
      split; [reflexivity|]. now apply select_first_call_iff.
    + intros (-> & Hfirst). now apply select_first_call_iff.
  - cbn [app filter is_call is_alert].
    destruct isLoading; [simpl; lia | apply select_first_one_reaction].
  - destruct isLoading; [simpl; lia | apply select_first_one_reaction].
Qed.

Lemma upload_takes_first_pdf_only_sample :
  In (onFileSelected Sample.pdf_file)
     (handleDrop false
        {| dataTransfer_files := Some [Sample.pdf_file; Sample.text_file] |}) /\
  ~ In (onFileSelected Sample.pdf_file)
       (handleDrop false
          {| dataTransfer_files := Some [Sample.text_file; Sample.pdf_file] |}).
Proof.
  split.
  - apply (proj1 (upload_takes_first_pdf_only false
                    {| dataTransfer_files :=
                         Some [Sample.pdf_file; Sample.text_file] |}
                    {| target_files := None |} Sample.pdf_file)).
    split; [reflexivity|]. exists [Sample.text_file]. split; reflexivity.
  - intros Hin.
    apply (proj1 (upload_takes_first_pdf_only false
                    {| dataTransfer_files :=
                         Some [Sample.text_file; Sample.pdf_file] |}
                    {| target_files := None |} Sample.pdf_file)) in Hin.
    destruct Hin as (_ & rest & Hfirst & _). discriminate Hfirst.
Defined.

(** ** What the local branch returns *)

(** The loop only ever appends to the text, and every page it visits starts
    its block with the page marker. *)
Lemma pages_loop_extends (pdf : PDFDocumentProxy) :
  forall remaining i fullText out,
    pages_loop pdf remaining i fullText = Fulfilled out ->
    exists tail,
      out = fullText ++ tail /\
      match remaining with
      | O => tail = ""
      | S _ => exists rest, tail = "--- PAGE " ++ rest
      end.
Proof.
  induction remaining as [|remaining IH]; intros i fullText out Hloop.
  - injection Hloop as <-. exists "". now rewrite append_nil_r.
  - cbn [pages_loop] in Hloop.
    destruct (getPage pdf i) as [page|e|]; cbn [await] in Hloop;
      try discriminate.
    destruct (getTextContent page) as [content|e|]; cbn [await] in Hloop;
      try discriminate.
    destruct (IH _ _ _ Hloop) as (tail & -> & _).
    exists (page_block i (pageText_of content) ++ tail).
    split; [apply append_assoc|].
    unfold page_block. eexists. rewrite append_assoc. reflexivity.
Qed.

(** X6.  When [parsePdfLocal] is fulfilled, its text is the failure text
    exactly when its body threw, and is empty exactly when the document was
    loaded and has no page; a text extracted from a document with pages
    starts with the marker of page 1, so it is never mistaken for either.
    The raw-text pane shows its notice in place of the empty text only. *)
Theorem local_text_cases (env : Env) (file : File.t) (t : string) :
  parsePdfLocal env file = Fulfilled t ->
  (t = "Error: Could not extract raw text from PDF for comparison." <->
   exists e, parsePdfLocal_try env file = Rejected e) /\
  (t = "" <->
   exists buffer pdf,
     arrayBuffer env file = Fulfilled buffer /\
     getDocument env buffer = Fulfilled pdf /\
     numPages pdf = 0) /\
  (parsePdfLocal_try env file = Fulfilled t -> t <> "" ->
   exists rest, t = "--- PAGE 1 ---" ++ rest) /\
  (forall aiResult mode,
     contentArea env (with_standardRawText aiResult t) Tab_raw_text mode =
     Pane_raw_text (if String.eqb t "" then "No raw text extracted." else t)).
Proof.
  intros Hlocal.
  assert (Hpane : forall aiResult mode,
     contentArea env (with_standardRawText aiResult t) Tab_raw_text mode =
     Pane_raw_text (if String.eqb t "" then "No raw text extracted." else t)).
  { intros aiResult mode. cbn. destruct t; reflexivity. }
  unfold parsePdfLocal in Hlocal. revert Hlocal.
  destruct (parsePdfLocal_try env file) as [out|e|] eqn:Htry; intros Hlocal;
    cbv beta iota delta [try_catch ret local_failure_text] in Hlocal;
    [| |discriminate Hlocal].
  - (* the body returned [out] *)
    injection Hlocal as <-.
    unfold parsePdfLocal_try in Htry.
    destruct (arrayBuffer env file) as [buffer|e|] eqn:Hbuf;
      cbn [await] in Htry; try discriminate.
    destruct (getDocument env buffer) as [pdf|e|] eqn:Hdoc;
      cbn [await] in Htry; try discriminate.
    destruct (pages_loop_extends _ _ _ _ _ Htry) as (tail & Hout & Htail).
    cbn [append] in Hout. subst out.
    destruct (numPages pdf) as [|n] eqn:Hn.
    + subst tail.
      split; [split; [discriminate | intros (e & He); discriminate]|].
      split; [split; [intros _; now exists buffer, pdf | reflexivity]|].
      split; [intros _ Hne; contradiction | exact Hpane].
    + destruct Htail as (rest & ->).
      split; [split; [discriminate | intros (e & He); discriminate]|].
      split.
      { split; [discriminate|].
        intros (b' & p' & Hb' & Hd' & Hn').
        assert (b' = buffer) as -> by congruence.
        assert (p' = pdf) as -> by congruence.
        congruence. }
      split; [|exact Hpane].
      intros _ _. cbn [pages_loop] in Htry.
      destruct (getPage pdf 1) as [page|e|]; cbn [await] in Htry;
        try discriminate.
      destruct (getTextContent page) as [content|e|]; cbn [await] in Htry;
        try discriminate.
      destruct (pages_loop_extends _ _ _ _ _ Htry) as (tail & Hout & _).
      rewrite Hout. cbn [append]. unfold page_block.
      eexists. cbn [digits_of_nat Nat.to_uint]. rewrite !append_assoc.
      reflexivity.
  - (* the body threw [e] *)
    injection Hlocal as <-.
    split; [split; [intros _; now exists e | reflexivity]|].
    split; [|split; [discriminate | exact Hpane]].
    split; [discriminate|].
    intros (buffer & pdf & Hbuf & Hdoc & Hn).
    unfold parsePdfLocal_try in Htry.
    rewrite Hbuf in Htry; cbn [await] in Htry.
    rewrite Hdoc in Htry; cbn [await] in Htry.
    rewrite Hn in Htry. discriminate.
Qed.

Lemma local_text_cases_sample :
  parsePdfLocal Events.env_empty Sample.pdf_file = Fulfilled "" /\
  (exists buffer pdf,
     arrayBuffer Events.env_empty Sample.pdf_file = Fulfilled buffer /\
     getDocument Events.env_empty buffer = Fulfilled pdf /\
     numPages pdf = 0) /\
  contentArea Events.env_empty (with_standardRawText Sample.ai_result "")
    Tab_raw_text Mode_tree = Pane_raw_text "No raw text extracted.".
Proof.
  assert (Hlocal : parsePdfLocal Events.env_empty Sample.pdf_file
                   = Fulfilled "") by (vm_compute; reflexivity).
  destruct (local_text_cases _ _ _ Hlocal) as (_ & Hempty & _ & Hpane).
  split; [exact Hlocal|].
  split; [apply Hempty; reflexivity|].
  exact (Hpane Sample.ai_result Mode_tree).
Defined.

(** ** What the remote branch returns *)

Lemma truthy_text_some (o : option string) (s : string) :
  truthy_text o = Some s -> o = Some s /\ s <> "".
Proof.
  unfold truthy_text. destruct o as [[|a r]|]; simpl; try discriminate.
  intros [= <-]. split; [reflexivity | discriminate].
Qed.

Lemma number_or_zero_normal (o : option number) :
  number_or o zero <> S754_nan /\ number_or o zero <> S754_zero true.
Proof.
  destruct o as [[s|s| |s m e]|]; simpl; split; discriminate.
Qed.

(** X7.  A result of the remote branch always comes from an answer whose
    text was not empty and parsed as JSON, for a part that declared the
    file's own MIME type.  It is the parsed document with [tokenUsage] set
    from the answer's usage metadata, whatever [tokenUsage] the document
    itself carried, and none of its three counters is NaN or negative
    zero. *)
Theorem remote_result_origin (env : Env) (file : File.t) (r : PdfParseResult) :
  parsePdfWithGemini env file = Fulfilled r ->
  exists pdfPart response response_text jsonResult u,
    fileToGenerativePart env file = Fulfilled pdfPart /\
    mimeType (inlineData pdfPart) = File.type file /\
    generateContent env pdfPart = Fulfilled response /\
    text response = Some response_text /\ response_text <> "" /\
    JSON_parse env response_text = inr jsonResult /\
    metadata r = metadata jsonResult /\
    pages r = pages jsonResult /\
    transactions r = transactions jsonResult /\
    standardRawText r = standardRawText jsonResult /\
    tokenUsage r = Some u /\
    u = tokenUsage_of (usageMetadata response) /\
    (promptTokens u <> S754_nan /\ promptTokens u <> S754_zero true) /\
    (responseTokens u <> S754_nan /\ responseTokens u <> S754_zero true) /\
    (totalTokens u <> S754_nan /\ totalTokens u <> S754_zero true).
Proof.
  rewrite parsePdfWithGemini_rethrows. unfold parsePdfWithGemini_try.
  destruct (fileToGenerativePart env file) as [part|e|] eqn:Hpart;
    cbn [await]; try discriminate.
  destruct (generateContent env part) as [resp|e|] eqn:Hresp;
    cbn [await]; try discriminate.
  destruct (truthy_text (text resp)) as [txt|] eqn:Htxt; [|discriminate].
  destruct (JSON_parse env txt) as [e|json] eqn:Hjson; cbn; [discriminate|].
  intros [= <-].
  apply truthy_text_some in Htxt as (Htext & Hne).
  exists part, resp, txt, json, (tokenUsage_of (usageMetadata resp)).
  repeat (split; [first [reflexivity | assumption]|]).
  split.
  { unfold fileToGenerativePart in Hpart.
    destruct (readAsDataURL env file); cbn in Hpart; try discriminate.
    injection Hpart as <-. reflexivity. }
  repeat (split; [first [reflexivity | assumption]|]).
  unfold tokenUsage_of. cbn [promptTokens responseTokens totalTokens].
  repeat split; apply number_or_zero_normal.
Qed.

Lemma remote_result_origin_sample :
  parsePdfWithGemini Sample.env Sample.pdf_file = Fulfilled Sample.ai_result /\
  exists pdfPart response response_text jsonResult u,
    fileToGenerativePart Sample.env Sample.pdf_file = Fulfilled pdfPart /\
    mimeType (inlineData pdfPart) = File.type Sample.pdf_file /\
    generateContent Sample.env pdfPart = Fulfilled response /\
    text response = Some response_text /\ response_text <> "" /\
    JSON_parse Sample.env response_text = inr jsonResult /\
    metadata Sample.ai_result = metadata jsonResult /\
    pages Sample.ai_result = pages jsonResult /\
    transactions Sample.ai_result = transactions jsonResult /\
    standardRawText Sample.ai_result = standardRawText jsonResult /\
    tokenUsage Sample.ai_result = Some u /\
    u = tokenUsage_of (usageMetadata response) /\
    (promptTokens u <> S754_nan /\ promptTokens u <> S754_zero true) /\
    (responseTokens u <> S754_nan /\ responseTokens u <> S754_zero true) /\
    (totalTokens u <> S754_nan /\ totalTokens u <> S754_zero true).
Proof.
  split; [vm_compute; reflexivity|].
  apply (remote_result_origin Sample.env Sample.pdf_file Sample.ai_result).
  vm_compute; reflexivity.
Defined.

(** ** The payload of the data URL *)

Lemma has_char_cons (c a : ascii) (s : string) :
  has_char c (String a s) = Ascii.eqb a c || has_char c s.
Proof.
  unfold has_char. cbn [string_forallb].
  destruct (Ascii.eqb a c); reflexivity.
Qed.

Lemma split_without (c : ascii) (s : string) :
  has_char c s = false -> split c s = [s].
Proof.
  induction s as [|a s IH]; [reflexivity|].
  rewrite has_char_cons. intros H. apply orb_false_iff in H as (Ha & Hs).
  cbn [split]. rewrite Ha, (IH Hs). reflexivity.
Qed.

Lemma split_at_first (c : ascii) (before after : string) :
  has_char c before = false ->
  split c (before ++ String c after) = before :: split c after.
Proof.
  induction before as [|a s IH]; intros H.
  - cbn [append split]. now rewrite Ascii.eqb_refl.
  - rewrite has_char_cons in H. apply orb_false_iff in H as (Ha & Hs).
    cbn [append split]. rewrite Ha, (IH Hs). reflexivity.
Qed.

(** X8.  From a data URL made of a header, a comma and a payload,
    [fileToGenerativePart] keeps exactly the payload (base64 text has no
    comma) and declares the file's own MIME type.  From a URL without any
    comma it builds a part whose data is [undefined], and it rejects only
    when the reader does. *)
Theorem data_url_payload (env : Env) (file : File.t) :
  (forall header payload,
     has_char comma header = false ->
     has_char comma payload = false ->
     readAsDataURL env file = Fulfilled (header ++ "," ++ payload) ->
     fileToGenerativePart env file =
     Fulfilled {| inlineData := {| data := Some payload;
                                   mimeType := File.type file |} |}) /\
  (forall url,
     has_char comma url = false ->
     readAsDataURL env file = Fulfilled url ->
     fileToGenerativePart env file =
     Fulfilled {| inlineData := {| data := None;
                                   mimeType := File.type file |} |}) /\
  (forall e,
     fileToGenerativePart env file = Rejected e <->
     readAsDataURL env file = Rejected e).
Proof.
  unfold fileToGenerativePart. split; [|split].
  - intros header payload Hh Hp ->. cbn [await ret]. unfold base64Data_of.
    change (header ++ "," ++ payload) with (header ++ String comma payload).
    rewrite (split_at_first _ _ _ Hh), (split_without _ _ Hp). reflexivity.
  - intros url Hu ->. cbn [await ret]. unfold base64Data_of.
    rewrite (split_without _ _ Hu). reflexivity.
  - intros e. destruct (readAsDataURL env file);
      cbv beta iota delta [await ret]; split; intros H;
      first [discriminate H | injection H as ->; reflexivity].
Qed.

Lemma data_url_payload_sample :
  has_char comma "data:application/pdf;base64" = false /\
  has_char comma "JVBERi0=" = false /\
  readAsDataURL Sample.env Sample.pdf_file
    = Fulfilled ("data:application/pdf;base64" ++ "," ++ "JVBERi0=") /\
  fileToGenerativePart Sample.env Sample.pdf_file =
    Fulfilled {| inlineData := {| data := Some "JVBERi0=";
                                  mimeType := "application/pdf" |} |}.
Proof.
  repeat (split; [reflexivity|]).
  apply (proj1 (data_url_payload Sample.env Sample.pdf_file)
           "data:application/pdf;base64" "JVBERi0="); reflexivity.
Defined.

(** ** Reading an exported row back *)









(** ** The name of the downloaded file *)

Lemma string_forallb_app (p : ascii -> bool) (a b : string) :
  string_forallb p (a ++ b) = string_forallb p a && string_forallb p b.
Proof.
  induction a as [|c a IH]; cbn [append string_forallb]; [reflexivity|].
  now rewrite IH, andb_assoc.
Qed.

Lemma string_map_app (f : ascii -> ascii) (a b : string) :
  string_map f (a ++ b) = string_map f a ++ string_map f b.
Proof.
  induction a as [|c a IH]; cbn [append string_map]; [reflexivity|].
  now rewrite IH.
Qed.

Lemma sanitize_safe (s : string) :
  string_forallb is_safe_char (sanitize s) = true.
Proof.
  induction s as [|c s IH]; [reflexivity|].
  unfold sanitize in *. cbn [string_map string_forallb]. rewrite IH.
  destruct (is_safe_char c) eqn:Hc; [now rewrite Hc | reflexivity].
Qed.

(** Cutting the extension keeps a prefix of the string. *)
Lemma strip_extension_forallb (p : ascii -> bool) (s : string) :
  string_forallb p s = true -> string_forallb p (strip_extension s) = true.
Proof.
  induction s as [|c s IH]; [reflexivity|].
  cbn [string_forallb strip_extension]. intros H.
  apply andb_true_iff in H as (Hc & Hs).
  destruct (_ && _ && _); [reflexivity|].
  cbn [string_forallb]. now rewrite Hc, (IH Hs).
Qed.

Lemma safeFileName_safe (fileName : option string) :
  string_forallb is_safe_char (safeFileName fileName) = true.
Proof.
  unfold safeFileName. destruct (truthy_text fileName); [|reflexivity].
  apply strip_extension_forallb, sanitize_safe.
Qed.

Lemma safe_char_is_ext_char (c : ascii) :
  is_safe_char c = true -> Ascii.eqb c "." = false -> is_ext_char c = true.
Proof.
  intros Hsafe Hdot. unfold is_ext_char. rewrite Hdot, orb_false_r.
  destruct (Ascii.eqb_spec c "/") as [->|_]; [discriminate Hsafe|reflexivity].
Qed.

Lemma sanitize_ext_chars (s : string) :
  has_char "." s = false -> string_forallb is_ext_char (sanitize s) = true.
Proof.
  induction s as [|c s IH]; [reflexivity|].
  rewrite has_char_cons. intros H. apply orb_false_iff in H as (Hc & Hs).
  unfold sanitize in *. cbn [string_map string_forallb]. rewrite (IH Hs).
  destruct (is_safe_char c) eqn:Hsafe.
  - now rewrite (safe_char_is_ext_char _ Hsafe Hc).
  - reflexivity.
Qed.

Lemma ext_chars_no_dot (s : string) :
  string_forallb is_ext_char s = true -> has_char "." s = false.
Proof.
  induction s as [|c s IH]; [reflexivity|].
  cbn [string_forallb]. intros H. apply andb_true_iff in H as (Hc & Hs).
  rewrite has_char_cons, (IH Hs). unfold is_ext_char in Hc.
  destruct (Ascii.eqb c "."); [|reflexivity].
  now rewrite orb_true_r in Hc.
Qed.

(** Without a dot nothing is cut. *)
Lemma strip_extension_no_dot (s : string) :
  has_char "." s = false -> strip_extension s = s.
Proof.
  induction s as [|c s IH]; [reflexivity|].
  rewrite has_char_cons. intros H. apply orb_false_iff in H as (Hc & Hs).
  cbn [strip_extension]. rewrite Hc, (IH Hs). reflexivity.
Qed.

(** The cut is at the last dot, when something follows it. *)
Lemma strip_extension_last_dot (base ext : string) :
  ext <> "" -> string_forallb is_ext_char ext = true ->
  strip_extension (base ++ String "." ext) = base.
Proof.
  intros Hne Hext. induction base as [|c base IH].
  - cbn [append strip_extension]. rewrite Ascii.eqb_refl, Hext.
    destruct ext; [contradiction | reflexivity].
  - cbn [append strip_extension]. rewrite IH.
    destruct (Ascii.eqb c "."); [|reflexivity].
    rewrite string_forallb_app. cbn [string_forallb].
    replace (is_ext_char ".") with false by reflexivity.
    cbn [andb]. rewrite !andb_false_r. reflexivity.
Qed.

Lemma sanitize_no_dot (s : string) :
  has_char "." s = false -> has_char "." (sanitize s) = false.
Proof.
  intros H. apply ext_chars_no_dot, sanitize_ext_chars, H.
Qed.

(** X10.  Whatever the name of the uploaded file, and also without one,
    the name given to a download is made of letters, digits, dots,
    underscores and hyphens only: no slash, no backslash, no space. *)
Theorem download_name_is_safe (env : Env) (data : PdfParseResult)
    (fileName : option string) (activeTab : Tab) :
  string_forallb is_safe_char (download_name env data fileName activeTab)
    = true /\
  has_char "/" (download_name env data fileName activeTab) = false /\
  has_char "092" (download_name env data fileName activeTab) = false /\
  has_char " " (download_name env data fileName activeTab) = false.
Proof.
  assert (Hsafe : string_forallb is_safe_char
                    (download_name env data fileName activeTab) = true).
  { unfold download_name. rewrite string_forallb_app, safeFileName_safe.
    destruct activeTab; reflexivity. }
  split; [exact Hsafe|].
  assert (Hnot : forall c, is_safe_char c = false ->
                           has_char c (download_name env data fileName
                                         activeTab) = false).
  { intros c Hc. revert Hsafe.
    generalize (download_name env data fileName activeTab) as s.
    induction s as [|a s IH]; [reflexivity|].
    cbn [string_forallb]. intros H. apply andb_true_iff in H as (Ha & Hs).
    rewrite has_char_cons, (IH Hs), orb_false_r.
    destruct (Ascii.eqb_spec a c) as [->|_]; [congruence | reflexivity]. }
  repeat split; apply Hnot; reflexivity.
Qed.

(** X11.  The download is named after the uploaded file without its
    extension: for a name ending in a dot and a non-empty extension free of
    dots, the base name with every character outside letters, digits, dot,
    underscore and hyphen replaced by an underscore.  A name without a dot
    is only cleaned that way, a name that ends with a dot keeps the dot, and
    an absent or empty name gives "parsed-output". *)
Theorem safeFileName_drops_extension :
  (forall base ext,
     ext <> "" -> has_char "." ext = false ->
     safeFileName (Some (base ++ "." ++ ext)) = sanitize base) /\
  (forall name,
     name <> "" -> has_char "." name = false ->
     safeFileName (Some name) = sanitize name) /\
  (forall base,
     has_char "." base = false ->
     safeFileName (Some (base ++ ".")) = sanitize base ++ ".") /\
  safeFileName None = "parsed-output" /\
  safeFileName (Some "") = "parsed-output".
Proof.
  split; [|split; [|split; [|split; reflexivity]]].
  - intros base ext Hne Hdot. unfold safeFileName.
    replace (truthy_text (Some (base ++ "." ++ ext)))
      with (Some (base ++ "." ++ ext)) by (destruct base; reflexivity).
    unfold sanitize. rewrite !string_map_app. fold (sanitize base).
    fold (sanitize ext).
    change (string_map (fun c => if is_safe_char c then c else "_"%char) ".")
      with ".".
    apply (strip_extension_last_dot (sanitize base) (sanitize ext)).
    + destruct ext; [contradiction | discriminate].
    + now apply sanitize_ext_chars.
  - intros name Hne Hdot. unfold safeFileName.
    replace (truthy_text (Some name)) with (Some name)
      by (destruct name; [contradiction | reflexivity]).
    now apply strip_extension_no_dot, sanitize_no_dot.
  - intros base Hdot. unfold safeFileName.
    replace (truthy_text (Some (base ++ "."))) with (Some (base ++ "."))
      by (destruct base; reflexivity).
    unfold sanitize. rewrite string_map_app. fold (sanitize base).
    change (string_map (fun c => if is_safe_char c then c else "_"%char) ".")
      with ".".
    pose proof (sanitize_no_dot _ Hdot) as Hclean.
    induction (sanitize base) as [|c s IH]; [reflexivity|].
    rewrite has_char_cons in Hclean.
    apply orb_false_iff in Hclean as (Hc & Hs).
    cbn [append strip_extension]. rewrite Hc, (IH Hs). reflexivity.
Qed.

Lemma safeFileName_drops_extension_sample :
  "pdf" <> "" /\ has_char "." "pdf" = false /\
  safeFileName (Some ("card statement (Jan).v2" ++ "." ++ "pdf"))
    = "card_statement__Jan_.v2" /\
  download_name Sample.env Sample.parsed
    (Some "card statement (Jan).v2.pdf") Tab_transactions
    = "card_statement__Jan_.v2_transactions.csv".
Proof.
  split; [discriminate|]. split; [reflexivity|]. split.
  - rewrite (proj1 safeFileName_drops_extension
               "card statement (Jan).v2" "pdf");
      [reflexivity | discriminate | reflexivity].
  - reflexivity.
Defined.

(** ** The active tab *)

Lemma offered_ai_json (data : PdfParseResult) : offered data Tab_ai_json = true.
Proof. reflexivity. Qed.

Lemma offered_after (data : PdfParseResult) (clicks : list Tab) :
  forall activeTab,
    offered data activeTab = true ->
    offered data (fold_left (clickTab data) clicks activeTab) = true.
Proof.
  induction clicks as [|t clicks IH]; intros activeTab Hoff; [exact Hoff|].
  cbn [fold_left]. apply IH. unfold clickTab.
  destruct (offered data t) eqn:Ht; [exact Ht | exact Hoff].
Qed.

(** X12.  Whatever the user clicks, the active tab is one whose button is
    in the tab bar, and the content area shows something: never the empty
    pane, and never a table without rows. *)
Theorem active_tab_is_offered (env : Env) (data : PdfParseResult)
    (clicks : list Tab) (mode : JsonViewMode) :
  offered data (activeTab_after data clicks) = true /\
  contentArea env data (activeTab_after data clicks) mode <> Pane_nothing /\
  contentArea env data (activeTab_after data clicks) mode <> Pane_table [].
Proof.
  assert (Hoff : offered data (activeTab_after data clicks) = true)
    by (apply offered_after, offered_ai_json).
  split; [exact Hoff|].
  destruct (activeTab_after data clicks).
  - destruct mode; split; discriminate.
  - split; discriminate.
  - rewrite offered_transactions in Hoff.
    apply truthy_hasTransactions in Hoff as (txs & Htx & Hne).
    cbn [contentArea]. rewrite Htx.
    split; [discriminate|].
    destruct txs as [|tx txs]; [contradiction | discriminate].
Qed.

(** ** The sign and the colour of an amount *)

(** X13.  An amount cell is of one of three kinds, and of no other: above
    zero, no plus sign and the plain colour; below zero, a plus sign and the
    credit colour; neither (zero or NaN), a plus sign and the plain colour.
    The credit colour never comes without the plus sign. *)
Theorem amount_sign_and_colour (env : Env) (tx : Transaction) :
  let plain :=
    "px-4 py-3 text-right font-mono font-medium whitespace-nowrap text-slate-200" in
  let credit :=
    "px-4 py-3 text-right font-mono font-medium whitespace-nowrap text-emerald-400" in
  (gt (amount tx) zero = true /\ lt (amount tx) zero = false /\
   sign (amountCell env tx) = "" /\ className (amountCell env tx) = plain) \/
  (lt (amount tx) zero = true /\ gt (amount tx) zero = false /\
   sign (amountCell env tx) = "+" /\ className (amountCell env tx) = credit) \/
  (gt (amount tx) zero = false /\ lt (amount tx) zero = false /\
   (exists s, amount tx = S754_zero s \/ amount tx = S754_nan) /\
   sign (amountCell env tx) = "+" /\ className (amountCell env tx) = plain).
Proof.
  unfold amountCell. cbn [sign className].
  destruct (amount tx) as [s|s| |s m e].
  - right; right. repeat split. exists s. now left.
  - destruct s; [right; left | left]; repeat split.
  - right; right. repeat split. exists false. now right.
  - destruct s; [right; left | left]; repeat split.
Qed.

(** ** No history *)

Lemma one_upload_select_first (env : Env) (files : option (list File.t))
    (st : AppState) :
  one_upload env st ->
  one_upload env (fold_left (perform env) (select_first files) st).
Proof.
  intros Hst. destruct files as [[|f rest]|]; simpl; try exact Hst.
  destruct (String.eqb_spec (File.type f) "application/pdf") as [Hpdf|_];
    simpl; [|exact Hst].
  right. exists f. split; [exact Hpdf|]. apply handleFileSelected_forgets.
Qed.

Lemma one_upload_step (env : Env) (st : AppState) (ev : AppEvent) :
  one_upload env st -> one_upload env (App_step env st ev).
Proof.
  intros Hst. destruct ev as [e|e|]; unfold App_step.
  - destruct (showsUpload st); [|exact Hst].
    unfold App_drop, handleDrop. cbn [app fold_left perform].
    destruct (isLoading_of st); [exact Hst | now apply one_upload_select_first].
  - destruct (showsUpload st); [|exact Hst].
    unfold App_fileChange, handleFileChange.
    destruct (isLoading_of st); [exact Hst | now apply one_upload_select_first].
  - destruct (showsReset st); [now left | exact Hst].
Qed.

(** X14.  [App] keeps no history: after any sequence of drops, file choices
    and presses of [New File], its state is the initial state or exactly the
    state that uploading one PDF file into a fresh application gives.
    Nothing of an earlier upload (result, error message, file) survives the
    next one or a reset. *)
Theorem App_keeps_no_history (env : Env) (events : list AppEvent) :
  App_run env events = initialState \/
  exists f, File.type f = "application/pdf" /\
            App_run env events = handleFileSelected env f initialState.
Proof.
  unfold App_run.
  assert (H : forall st, one_upload env st ->
                         one_upload env (fold_left (App_step env) events st)).
  { induction events as [|ev events IH]; intros st Hst; [exact Hst|].
    cbn [fold_left]. apply IH. now apply one_upload_step. }
  apply H. now left.
Qed.

(** ** From the upload to the viewer *)

(** X15.  After an upload on which both branches complete, the viewer gets
    a result whose raw-text download is exactly the text the local branch
    returned, whose CSV download is that of the transactions the remote
    branch returned, and whose tab bar offers the transactions tab exactly
    when the remote branch returned a non-empty transaction list. *)
Theorem upload_then_view (env : Env) (selectedFile : File.t) (st : AppState)
    (aiResult : PdfParseResult) (rawText : string) :
  parsePdfWithGemini env selectedFile = Fulfilled aiResult ->
  parsePdfLocal env selectedFile = Fulfilled rawText ->
  exists data,
    result (handleFileSelected env selectedFile st) = Some data /\
    showsViewer (handleFileSelected env selectedFile st) = true /\
    dl_content (handleDownload env data Tab_raw_text) = rawText /\
    dl_content (handleDownload env data Tab_transactions) =
      csv_content env (transactions aiResult) /\
    (offered data Tab_transactions = true <->
     exists txs, transactions aiResult = Some txs /\ txs <> []).
Proof.
  intros Hai Hraw.
  rewrite (handleFileSelected_success _ _ _ _ _ Hai Hraw).
  exists (with_standardRawText aiResult rawText).
  split; [reflexivity|]. split; [reflexivity|].
  split; [cbn; destruct rawText; reflexivity|].
  split; [reflexivity|].
  rewrite offered_transactions.
  exact (truthy_hasTransactions (with_standardRawText aiResult rawText)).
Qed.

Lemma upload_then_view_sample :
  parsePdfWithGemini Sample.env Sample.pdf_file = Fulfilled Sample.ai_result /\
  parsePdfLocal Sample.env Sample.pdf_file = Fulfilled Sample.raw_text /\
  exists data,
    result (handleFileSelected Sample.env Sample.pdf_file initialState)
      = Some data /\
    showsViewer (handleFileSelected Sample.env Sample.pdf_file initialState)
      = true /\
    dl_content (handleDownload Sample.env data Tab_raw_text)
      = Sample.raw_text /\
    dl_content (handleDownload Sample.env data Tab_transactions) =
      csv_content Sample.env (transactions Sample.ai_result) /\
    (offered data Tab_transactions = true <->
     exists txs, transactions Sample.ai_result = Some txs /\ txs <> []).
Proof.
  split; [vm_compute; reflexivity|].
  split; [vm_compute; reflexivity|].
  apply (upload_then_view Sample.env Sample.pdf_file initialState
           Sample.ai_result Sample.raw_text);
    vm_compute; reflexivity.
Defined.

(** ** Where the local branch stops *)

(** A rejected loop has a first page that could not be read. *)
Lemma pages_loop_rejected (pdf : PDFDocumentProxy) (e : Thrown) :
  forall remaining i fullText,
    pages_loop pdf remaining i fullText = Rejected e ->
    exists texts k,
      k < remaining /\
      (forall j, i <= j < i + k ->
         exists page, getPage pdf j = Fulfilled page /\
                      getTextContent page = Fulfilled (texts j)) /\
      (getPage pdf (i + k) = Rejected e \/
       exists page, getPage pdf (i + k) = Fulfilled page /\
                    getTextContent page = Rejected e).
Proof.
  induction remaining as [|remaining IH]; intros i fullText Hloop;
    [discriminate|].
  cbn [pages_loop] in Hloop.
  destruct (getPage pdf i) as [page|e'|] eqn:Hpage; cbn [await] in Hloop;
    [| |discriminate].
  - destruct (getTextContent page) as [content|e'|] eqn:Htext;
      cbn [await] in Hloop; [| |discriminate].
    + destruct (IH _ _ Hloop) as (texts & k & Hk & Hread & Hbad).
      exists (fun j => if Nat.eqb j i then content else texts j), (S k).
      split; [lia|]. split.
      * intros j Hj. destruct (Nat.eqb_spec j i) as [->|Hne].
        -- exists page. now split.
        -- apply Hread. lia.
      * now replace (i + S k) with (S i + k) by lia.
    + injection Hloop as ->.
      exists (fun _ => {| items := [] |}), 0.
      split; [lia|]. split; [intros j Hj; lia|].
      rewrite Nat.add_0_r. right. exists page. now split.
  - injection Hloop as ->.
    exists (fun _ => {| items := [] |}), 0.
    split; [lia|]. split; [intros j Hj; lia|].
    rewrite Nat.add_0_r. now left.
Qed.

(** A fulfilled loop has read every page it had to visit. *)
Lemma pages_loop_fulfilled (pdf : PDFDocumentProxy) :
  forall remaining i fullText out,
    pages_loop pdf remaining i fullText = Fulfilled out ->
    exists texts,
      forall j, i <= j < i + remaining ->
        exists page, getPage pdf j = Fulfilled page /\
                     getTextContent page = Fulfilled (texts j).
Proof.
  induction remaining as [|remaining IH]; intros i fullText out Hloop.
  - exists (fun _ => {| items := [] |}). intros j Hj. lia.
  - cbn [pages_loop] in Hloop.
    destruct (getPage pdf i) as [page|e'|] eqn:Hpage; cbn [await] in Hloop;
      try discriminate.
    destruct (getTextContent page) as [content|e'|] eqn:Htext;
      cbn [await] in Hloop; try discriminate.
    destruct (IH _ _ _ Hloop) as (texts & Hread).
    exists (fun j => if Nat.eqb j i then content else texts j).
    intros j Hj. destruct (Nat.eqb_spec j i) as [->|Hne].
    + exists page. now split.
    + apply Hread. lia.
Qed.

(** X16.  The body of [parsePdfLocal] throws [e] exactly when reading the
    file rejects with [e], or loading the document does, or, after some
    pages read in order from page 1, fetching the next page or extracting
    its text does: the first page that cannot be read ends the loop, within
    pages 1 to [numPages]. *)
Theorem local_throw_sites (env : Env) (file : File.t) (e : Thrown) :
  parsePdfLocal_try env file = Rejected e <->
  arrayBuffer env file = Rejected e \/
  (exists buffer,
     arrayBuffer env file = Fulfilled buffer /\
     getDocument env buffer = Rejected e) \/
  (exists buffer pdf texts k,
     arrayBuffer env file = Fulfilled buffer /\
     getDocument env buffer = Fulfilled pdf /\
     k < numPages pdf /\
     (forall j, 1 <= j < 1 + k ->
        exists page, getPage pdf j = Fulfilled page /\
                     getTextContent page = Fulfilled (texts j)) /\
     (getPage pdf (1 + k) = Rejected e \/
      exists page, getPage pdf (1 + k) = Fulfilled page /\
                   getTextContent page = Rejected e)).
Proof.
  split; [|apply parsePdfLocal_try_throw_sites].
  unfold parsePdfLocal_try.
  destruct (arrayBuffer env file) as [buffer|e'|] eqn:Hbuf; cbn [await];
    [|intros [= ->]; now left|discriminate].
  destruct (getDocument env buffer) as [pdf|e'|] eqn:Hdoc; cbn [await];
    [|intros [= ->]; right; left; now exists buffer|discriminate].
  intros Hloop. right; right.
  destruct (pages_loop_rejected _ _ _ _ _ Hloop) as (texts & k & Hk & Hr & Hb).
  exists buffer, pdf, texts, k. now repeat split.
Qed.

(** X17.  The body of [parsePdfLocal] returns a text only when the file was
    read, the document loaded and every page from 1 to [numPages] read; the
    text is then the concatenation of the blocks of all those pages.  No
    page is left out of a text that is returned. *)
Theorem local_text_is_complete (env : Env) (file : File.t) (t : string) :
  parsePdfLocal_try env file = Fulfilled t <->
  exists buffer pdf texts,
    arrayBuffer env file = Fulfilled buffer /\
    getDocument env buffer = Fulfilled pdf /\
    (forall i, 1 <= i <= numPages pdf ->
       exists page, getPage pdf i = Fulfilled page /\
                    getTextContent page = Fulfilled (texts i)) /\
    t = spec_local_text (numPages pdf) (fun i => spec_page_text (texts i)).
Proof.
  assert (Hspec : forall pdf texts,
    String.concat ""
      (map (fun j => page_block j (pageText_of (texts j)))
           (seq 1 (numPages pdf))) =
    spec_local_text (numPages pdf) (fun i => spec_page_text (texts i))).
  { intros pdf texts. unfold spec_local_text. f_equal.
    apply map_ext; intros i. rewrite page_block_is_spec.
    unfold pageText_of, spec_page_text. now rewrite join_is_concat. }
  unfold parsePdfLocal_try. split.
  - destruct (arrayBuffer env file) as [buffer|e'|] eqn:Hbuf; cbn [await];
      try discriminate.
    destruct (getDocument env buffer) as [pdf|e'|] eqn:Hdoc; cbn [await];
      try discriminate.
    intros Hloop.
    destruct (pages_loop_fulfilled _ _ _ _ _ Hloop) as (texts & Hread).
    exists buffer, pdf, texts.
    split; [first [reflexivity | assumption]|].
    split; [first [reflexivity | assumption]|].
    split; [intros i Hi; apply Hread; lia|].
    rewrite (pages_loop_readable pdf texts) in Hloop
      by (intros j Hj; apply Hread; lia).
    injection Hloop as <-. cbn [append]. apply Hspec.
  - intros (buffer & pdf & texts & Hbuf & Hdoc & Hread & ->).
    rewrite Hbuf; cbn [await]. rewrite Hdoc; cbn [await].
    rewrite (pages_loop_readable pdf texts)
      by (intros j Hj; apply Hread; lia).
    cbn [append]. now rewrite Hspec.
Qed.

Lemma local_throw_sites_sample :
  parsePdfLocal_try Sample.env_damaged Sample.pdf_file
    = Rejected (Error "Invalid page request.") /\
  parsePdfLocal_try Sample.env_unreadable Sample.pdf_file
    = Rejected (Error "Invalid PDF structure.").
Proof.
  split.
  - apply (proj2 (local_throw_sites Sample.env_damaged Sample.pdf_file
                    (Error "Invalid page request."))).
    right; right.
    exists [], Sample.damaged_document, Sample.text_content, 1.
    split; [reflexivity|]. split; [reflexivity|]. split; [simpl; lia|].
    split; [|left; reflexivity].
    intros j Hj. assert (j = 1) as -> by lia.
    exists Sample.page_one. split; reflexivity.
  - apply (proj2 (local_throw_sites Sample.env_unreadable Sample.pdf_file
                    (Error "Invalid PDF structure."))).
    right; left. exists []. split; reflexivity.
Defined.

Lemma local_text_is_complete_sample :
  parsePdfLocal_try Sample.env Sample.pdf_file = Fulfilled Sample.raw_text /\
  exists buffer pdf texts,
    arrayBuffer Sample.env Sample.pdf_file = Fulfilled buffer /\
    getDocument Sample.env buffer = Fulfilled pdf /\
    (forall i, 1 <= i <= numPages pdf ->
       exists page, getPage pdf i = Fulfilled page /\
                    getTextContent page = Fulfilled (texts i)) /\
    Sample.raw_text =
      spec_local_text (numPages pdf) (fun i => spec_page_text (texts i)).
Proof.
  assert (Htry : parsePdfLocal_try Sample.env Sample.pdf_file
                 = Fulfilled Sample.raw_text) by (vm_compute; reflexivity).
  split; [exact Htry|].
  exact (proj1 (local_text_is_complete Sample.env Sample.pdf_file
                  Sample.raw_text) Htry).
Defined.
